(** * consul-mcp-server: topology, health and analysis core

    A shallow embedding of the aggregation / inference / diagnosis pipeline
    of the server (resources/consul-client.ts, resources/services.ts,
    resources/health.ts, tools/status-analyzer.ts, tools/diagram-generator.ts,
    and the analyze-service tool and route of the server) together with
    the properties its specification states about it and further
    properties that the sources show.

    Conventions of the embedding:
    - a JavaScript string is a [string] (a sequence of code units; the
      character classes below are those of the code units 0..255);
    - a JavaScript number that the code computes with fractional values is
      a binary64 [float]; integer counters ([length], int32 hashes) are [Z]
      or [nat];
    - the registry backend is a snapshot: every gateway call is a field of
      [Backend], and a call either throws, answers with something that is
      not an object/array, or answers with a value;
    - [Math.sin] and the conversions of numbers to text ([toFixed] and
      template interpolation) are platform primitives and are parameters
      of the development, gathered in the class [Platform]. *)

From Stdlib Require Import ZArith List String Ascii Bool Lia Floats DecimalString.
From Stdlib Require Import Sorted Permutation.
From stdpp Require Import gmap strings.
Import ListNotations.

#[local] Set Warnings "-inexact-float".

Local Open Scope string_scope.
Local Open Scope list_scope.
Local Open Scope Z_scope.

(** ** JavaScript primitives used by the sources *)

Module JS.

(** The three outcomes of a gateway call that the sources distinguish:
    a rejected promise, a resolved value that fails the
    [typeof x === 'object'] / [Array.isArray] guard, and a usable value. *)
Inductive Response (A : Type) : Type :=
| Throws
| NotObject
| Value (a : A).
Arguments Throws {A}.
Arguments NotObject {A}.
Arguments Value {A} a.

(** *** Strings *)

Definition charCode (c : ascii) : Z := Z.of_nat (nat_of_ascii c).

Definition inRange (lo hi : Z) (c : ascii) : bool :=
  (lo <=? charCode c) && (charCode c <=? hi).

(** [s.includes(sub)] *)
Fixpoint includes (s sub : string) : bool :=
  String.prefix sub s ||
  match s with
  | EmptyString => false
  | String _ s' => includes s' sub
  end.

(** [s.split(sep)] for a one-character separator; ["".split(",")] is
    the one-element array [[""]]. *)
Fixpoint split (sep : ascii) (s : string) : list string :=
  match s with
  | EmptyString => [EmptyString]
  | String c s' =>
      if Ascii.eqb c sep then EmptyString :: split sep s'
      else match split sep s' with
           | hd :: tl => String c hd :: tl
           | [] => [String c EmptyString]
           end
  end.

(** White space of [String.prototype.trim] among the code units 0..255:
    TAB, LF, VT, FF, CR, SP and NBSP. *)
Definition isWhiteSpace (c : ascii) : bool :=
  inRange 9 13 c || (charCode c =? 32) || (charCode c =? 160).

Fixpoint trimStart (s : string) : string :=
  match s with
  | EmptyString => EmptyString
  | String c s' => if isWhiteSpace c then trimStart s' else s
  end.

Fixpoint trimEnd (s : string) : string :=
  match s with
  | EmptyString => EmptyString
  | String c s' =>
      match trimEnd s' with
      | EmptyString => if isWhiteSpace c then EmptyString else String c EmptyString
      | t => String c t
      end
  end.

Definition trim (s : string) : string := trimEnd (trimStart s).

(** [s.toLowerCase()] on the code units 0..255: A-Z and the upper-case
    Latin-1 letters (except the multiplication sign) move by 32. *)
Definition lowerChar (c : ascii) : ascii :=
  if inRange 65 90 c || inRange 192 214 c || inRange 216 222 c
  then ascii_of_nat (nat_of_ascii c + 32)
  else c.

Fixpoint toLowerCase (s : string) : string :=
  match s with
  | EmptyString => EmptyString
  | String c s' => String (lowerChar c) (toLowerCase s')
  end.

(** [s.replace(/[class]/g, repl)] for a one-character class. *)
Fixpoint replaceAllClass (cls : ascii -> bool) (repl : string) (s : string) : string :=
  match s with
  | EmptyString => EmptyString
  | String c s' =>
      (if cls c then repl else String c EmptyString) +:+ replaceAllClass cls repl s'
  end.

(** The double-quote character inside a template literal. *)
Definition dquote : string := String "034"%char EmptyString.

(** [arr.join(sep)] *)
Fixpoint join (sep : string) (l : list string) : string :=
  match l with
  | [] => EmptyString
  | [x] => x
  | x :: tl => x +:+ sep +:+ join sep tl
  end.

(** Template interpolation of a non-negative integer. *)
Definition natToString (n : nat) : string :=
  NilEmpty.string_of_uint (Nat.to_uint n).

Definition intToString (z : Z) : string :=
  match z with
  | Z0 => "0"
  | Zpos p => natToString (Pos.to_nat p)
  | Zneg p => "-" +:+ natToString (Pos.to_nat p)
  end.

(** The regular expression [/HTTP.*[45]\d\d/] (no flags): the literal
    HTTP, then any run of characters other than line terminators, then
    4 or 5 followed by two digits. *)
Definition isDigit (c : ascii) : bool := inRange 48 57 c.

Definition isLineTerminator (c : ascii) : bool :=
  (charCode c =? 10) || (charCode c =? 13).

Definition statusAt (s : string) : option string :=
  match s with
  | String a (String b (String c _)) =>
      if (Ascii.eqb a "4" || Ascii.eqb a "5") && isDigit b && isDigit c
      then Some (String a (String b (String c EmptyString)))
      else None
  | _ => None
  end.

(** The last position on the current line where [[45]\d\d] matches:
    [.*] is greedy, so this is the capture of [/HTTP.*([45]\d\d)/]. *)
Fixpoint lastStatusOnLine (s : string) : option string :=
  match s with
  | EmptyString => None
  | String c s' =>
      let later := if isLineTerminator c then None else lastStatusOnLine s' in
      match later with
      | Some r => Some r
      | None => statusAt s
      end
  end.

(** [s.match(/HTTP.*([45]\d\d)/)?.[1]]: leftmost HTTP that can be
    completed. *)
Fixpoint matchHttpStatus (s : string) : option string :=
  match s with
  | EmptyString => None
  | String _ s' =>
      match (if String.prefix "HTTP" s
             then lastStatusOnLine (String.substring 4 (String.length s - 4) s)
             else None) with
      | Some r => Some r
      | None => matchHttpStatus s'
      end
  end.

Definition testHttpStatus (s : string) : bool :=
  match matchHttpStatus s with Some _ => true | None => false end.

(** [[...new Set(l)]]: first occurrences, in insertion order. *)
Fixpoint dedup (l : list string) (seen : list string) : list string :=
  match l with
  | [] => []
  | x :: tl =>
      if existsb (String.eqb x) seen then dedup tl seen
      else x :: dedup tl (x :: seen)
  end.

Definition uniq (l : list string) : list string := dedup l [].

(** [.sort((a, b) => b.count - a.count)] on (key, count) entries:
    descending by count and stable, as [Array.prototype.sort] is. *)
Fixpoint insertByCount (x : string * nat) (l : list (string * nat))
    : list (string * nat) :=
  match l with
  | [] => [x]
  | y :: tl =>
      if (snd y <=? snd x)%nat then x :: y :: tl else y :: insertByCount x tl
  end.

Definition sortByCount (l : list (string * nat)) : list (string * nat) :=
  fold_right insertByCount [] l.

(** *** Numbers *)

(** [ToInt32]: wrap to the signed 32-bit range. *)
Definition toInt32 (z : Z) : Z := (z + 2 ^ 31) mod 2 ^ 32 - 2 ^ 31.

(** [a << k] on an int32 operand. *)
Definition shl (a k : Z) : Z := toInt32 (Z.shiftl a k).

(** [a & b] *)
Definition band (a b : Z) : Z := toInt32 (Z.land (toInt32 a) (toInt32 b)).

(** An integer of at most 53 bits as a binary64 number (exact). *)
Definition ofZ (z : Z) : float :=
  match z with
  | Z0 => PrimFloat.zero
  | Zpos _ => PrimFloat.of_uint63 (Uint63.of_Z z)
  | Zneg _ => PrimFloat.opp (PrimFloat.of_uint63 (Uint63.of_Z (- z)))
  end.

(** [Math.floor]: NaN, the infinities and the zeros are returned as they
    are; a finite [m * 2^e] with [e >= 0] is already an integer;
    otherwise the mantissa is shifted right, which rounds towards minus
    infinity on [Z]. *)
Definition Math_floor (x : float) : float :=
  match Prim2SF x with
  | S754_finite s m e =>
      if (0 <=? e)%Z then x
      else
        let z := Z.shiftr (if s then Z.neg m else Z.pos m) (- e) in
        if (z =? 0)%Z then (if s then PrimFloat.neg_zero else PrimFloat.zero)
        else ofZ z
  | _ => x
  end.

(** [cond ? ... : ...] on numbers: the comparison operators of binary64
    (false whenever an operand is NaN). *)
Definition gt (x y : float) : bool := PrimFloat.ltb y x.

End JS.

Import JS.

(** ** Platform primitives

    [Math.sin] on binary64 numbers and the two number-to-text conversions
    are provided by the JavaScript engine. *)

Class Platform : Type := {
  Math_sin : float -> float;
  Number_toString : float -> string;
  Number_toFixed : float -> nat -> string
}.

(** ** resources/consul-client.ts *)

Module ConsulClient.

(** *** Records answered by the registry gateway *)

Module Check.
Record t : Type := {
  Name : string;
  Status : string;
  Output : string;
  Notes : option string;
  ServiceID : string;
  ServiceName : option string
}.
End Check.

Module Node.
Record t : Type := {
  ServiceID : string;
  ServiceName : string;
  ServiceAddress : string;
  Address : string;
  ServicePort : Z;
  Node : string;
  ServiceTags : option (list string);
  ServiceMeta : option (gmap string string)
}.
End Node.

Module Intention.
Record t : Type := {
  SourceName : string;
  DestinationName : string;
  Action : string
}.
End Intention.

(** A snapshot of the registry. [catalog_service_list] carries the keys
    of the answered object in [Object.keys] order, [agent_check_list]
    the entries of the answered object in [for ... in] order. *)
Record Backend : Type := {
  catalog_service_list : Response (list string);
  catalog_service_nodes : string -> Response (list Node.t);
  agent_check_list : Response (list (string * Check.t));
  connect_intentions_list : Response (list Intention.t)
}.

(** *** Exported types *)

(** [HealthStatus] is the union 'passing' | 'warning' | 'critical' |
    'unknown'; values reach it through the unchecked cast
    [check.Status as HealthStatus], so at run time it is a string. *)
Definition HealthStatus : Type := string.

Record HealthCheck : Type := {
  check_id : string;
  check_name : string;
  check_status : HealthStatus;
  check_output : string;
  check_notes : option string;
  check_serviceId : option string;
  check_serviceName : option string
}.

Record ServiceHealth : Type := {
  health_status : HealthStatus;
  health_checks : list HealthCheck
}.

Record ConsulService : Type := {
  id : string;
  name : string;
  address : string;
  port : string;
  node : string;
  tags : list string;
  meta : gmap string string;
  health : ServiceHealth
}.

Inductive ConnectionStatus : Type :=
| healthy | warning | degraded | failing | blocked | allowed | inferred.

Definition ConnectionStatus_eqb (a b : ConnectionStatus) : bool :=
  match a, b with
  | healthy, healthy | warning, warning | degraded, degraded
  | failing, failing | blocked, blocked | allowed, allowed
  | inferred, inferred => true
  | _, _ => false
  end.

Record ServiceConnection : Type := {
  source : string;
  destination : string;
  status : ConnectionStatus;
  protocol : string;
  usesServiceMesh : bool;
  intentionAction : option string;
  latency : option float;
  errorRate : option float;
  requestVolume : option float;
  errorMessage : option string
}.

(** *** getServiceHealth *)

(** One turn of the [for (const checkId in checks)] loop; the state is
    the pair [(serviceChecks, overallStatus)]. *)
Definition healthStep (serviceId : string)
    (acc : list HealthCheck * HealthStatus) (entry : string * Check.t)
    : list HealthCheck * HealthStatus :=
  let '(serviceChecks, overallStatus) := acc in
  let '(checkId, check) := entry in
  if String.eqb (Check.ServiceID check) serviceId then
    (serviceChecks ++
       [ {| check_id := checkId;
            check_name := Check.Name check;
            check_status := Check.Status check;
            check_output := Check.Output check;
            check_notes := Check.Notes check;
            check_serviceId := None;
            check_serviceName := None |} ],
     if String.eqb (Check.Status check) "critical" then "critical"
     else if String.eqb (Check.Status check) "warning"
             && negb (String.eqb overallStatus "critical")
          then "warning"
          else overallStatus)
  else acc.

Definition getServiceHealth (b : Backend) (serviceId : string) : ServiceHealth :=
  match agent_check_list b with
  | Value checks =>
      let '(serviceChecks, overallStatus) :=
        fold_left (healthStep serviceId) checks ([], "passing") in
      {| health_status := overallStatus; health_checks := serviceChecks |}
  | NotObject | Throws =>
      {| health_status := "unknown"; health_checks := [] |}
  end.

(** *** getServices *)

Definition serviceOfNode (b : Backend) (service : Node.t) : ConsulService :=
  let health := getServiceHealth b (Node.ServiceID service) in
  {| id := Node.ServiceID service;
     name := Node.ServiceName service;
     address := if String.eqb (Node.ServiceAddress service) EmptyString
                then Node.Address service
                else Node.ServiceAddress service;
     port := intToString (Node.ServicePort service);
     node := Node.Node service;
     tags := default [] (Node.ServiceTags service);
     meta := default ∅ (Node.ServiceMeta service);
     health := {| health_status := health_status health;
                  health_checks := health_checks health |} |}.

(** The [for (const serviceName of Object.keys(serviceNames))] loop.
    [None] is an exception escaping the loop (a rejected
    [catalog.service.nodes]). *)
Fixpoint collectServices (b : Backend) (serviceNames : list string)
    : option (list ConsulService) :=
  match serviceNames with
  | [] => Some []
  | serviceName :: rest =>
      if String.eqb serviceName "consul" then collectServices b rest
      else
        match catalog_service_nodes b serviceName with
        | Throws => None
        | NotObject => collectServices b rest
        | Value serviceDetails =>
            match collectServices b rest with
            | Some services => Some (map (serviceOfNode b) serviceDetails ++ services)
            | None => None
            end
        end
  end.

Definition getServices (b : Backend) : list ConsulService :=
  match catalog_service_list b with
  | Value serviceNames =>
      match collectServices b serviceNames with
      | Some services => services
      | None => []
      end
  | NotObject => []
  | Throws => []
  end.

(** *** getAllHealthChecks, getFailingHealthChecks *)

Definition getAllHealthChecks (b : Backend) : list HealthCheck :=
  match agent_check_list b with
  | Value checks =>
      map (fun entry : string * Check.t =>
             let '(checkId, check) := entry in
             {| check_id := checkId;
                check_name := Check.Name check;
                check_status := Check.Status check;
                check_output := Check.Output check;
                check_notes := Check.Notes check;
                check_serviceId := Some (Check.ServiceID check);
                check_serviceName := Check.ServiceName check |}) checks
  | NotObject => []
  | Throws => []
  end.

Definition isFailingCheck (check : HealthCheck) : bool :=
  String.eqb (check_status check) "warning"
  || String.eqb (check_status check) "critical".

Definition getFailingHealthChecks (b : Backend) : list HealthCheck :=
  List.filter isFailingCheck (getAllHealthChecks b).

(** *** hashString, seededRandom, getRandomErrorMessage *)

(** [hash = ((hash << 5) - hash) + char; hash = hash & hash] for each
    code unit, then [Math.abs]. *)
Definition hashStep (hash : Z) (char : ascii) : Z :=
  let hash := shl hash 5 - hash + charCode char in
  band hash hash.

Definition hashString (str : string) : Z :=
  Z.abs (fold_left hashStep (list_ascii_of_string str) 0).

Definition errors : list string :=
  [ "Connection timeout";
    "Service unavailable";
    "Internal server error";
    "Bad gateway";
    "Too many requests";
    "Connection refused";
    "DNS resolution failed";
    "TLS handshake failed" ].

(** An array index: the value of a non-negative integral number
    ([None] for NaN, an infinity or a negative number, which index
    nothing). *)
Definition arrayIndex (x : float) : option nat :=
  match Prim2SF x with
  | S754_zero _ => Some 0%nat
  | S754_finite false m e => Some (Z.to_nat (Z.shiftl (Z.pos m) e))
  | _ => None
  end.

(** [errors[Math.floor(rand * errors.length)]]; an index outside the
    array reads [undefined]. *)
Definition getRandomErrorMessage (rand : float) : option string :=
  match arrayIndex (Math_floor (rand * ofZ (Z.of_nat (length errors)))%float) with
  | Some i => nth_error errors i
  | None => None
  end.

Section Synthesis.
Context `{Platform}.

(** One call of the closure returned by [seededRandom(seed)]: the
    drawn number and the incremented captured [seed]. *)
Definition seededRandom (seed : Z) : float * Z :=
  let x := (Math_sin (ofZ seed) * 10000)%float in
  ((x - Math_floor x)%float, seed + 1).

(** *** enhanceConnectionWithMetrics *)

Definition enhanceConnectionWithMetrics (connection : ServiceConnection)
    : ServiceConnection :=
  let enhanced := connection in
  if ConnectionStatus_eqb (status connection) blocked then enhanced
  else
    let seed := hashString (source connection +:+ "-" +:+ destination connection) in
    let '(r1, seed) := seededRandom seed in
    let '(r2, seed) := seededRandom seed in
    let '(r3, seed) := seededRandom seed in
    let latency' := (Math_floor (r1 * 450) + 50)%float in
    let errorRate' := (r2 * 0.1)%float in
    let requestVolume' := (Math_floor (r3 * 990) + 10)%float in
    let '(status', errorMessage') :=
      if gt errorRate' 0.05 then
        let '(r4, _) := seededRandom seed in
        (degraded, getRandomErrorMessage r4)
      else if gt errorRate' 0 then (warning, errorMessage connection)
      else if ConnectionStatus_eqb (status connection) inferred
           then (healthy, errorMessage connection)
           else (status connection, errorMessage connection) in
    {| source := source connection;
       destination := destination connection;
       status := status';
       protocol := protocol connection;
       usesServiceMesh := usesServiceMesh connection;
       intentionAction := intentionAction connection;
       latency := Some latency';
       errorRate := Some errorRate';
       requestVolume := Some requestVolume';
       errorMessage := errorMessage' |}.

(** *** getServiceConnections *)

Definition connectionOfIntention (intention : Intention.t) : ServiceConnection :=
  {| source := Intention.SourceName intention;
     destination := Intention.DestinationName intention;
     status := if String.eqb (Intention.Action intention) "allow"
               then allowed else blocked;
     protocol := "tcp";
     usesServiceMesh := true;
     intentionAction := Some (Intention.Action intention);
     latency := None;
     errorRate := None;
     requestVolume := None;
     errorMessage := None |}.

(** First tier. A rejected [connect.intentions.list()] is caught and
    logged; an answer that is not an array is skipped. *)
Definition intentionConnections (b : Backend) : list ServiceConnection :=
  match connect_intentions_list b with
  | Value intentions => map connectionOfIntention intentions
  | NotObject => []
  | Throws => []
  end.

Definition inferredConnection (source' target : ConsulService) (protocol' : string)
    : ServiceConnection :=
  {| source := name source';
     destination := name target;
     status := inferred;
     protocol := protocol';
     usesServiceMesh := false;
     intentionAction := None;
     latency := None;
     errorRate := None;
     requestVolume := None;
     errorMessage := None |}.

(** [source.meta?.upstream_services?.split(',') || []] *)
Definition upstreams (source' : ConsulService) : list string :=
  match meta source' !! "upstream_services" with
  | Some declared => split "," declared
  | None => []
  end.

(** [source.meta?.protocol || 'http'] *)
Definition declaredProtocol (source' : ConsulService) : string :=
  match meta source' !! "protocol" with
  | Some p => if String.eqb p EmptyString then "http" else p
  | None => "http"
  end.

(** The [for (const upstreamName of upstreams)] loop. *)
Definition metadataConnections (services : list ConsulService)
    (source' : ConsulService) : list ServiceConnection :=
  flat_map
    (fun upstreamName =>
       let targets :=
         List.filter (fun s => String.eqb (name s) (trim upstreamName)) services in
       map (fun target => inferredConnection source' target (declaredProtocol source'))
           targets)
    (upstreams source').

(** The condition of the single [if] of the naming heuristic: the
    disjunction of the six containment tests. *)
Definition namingCondition (source' target : ConsulService) : bool :=
  (includes (name source') "api" && includes (name target) "service")
  || (includes (name source') "web" && includes (name target) "api")
  || (includes (name source') "service" && includes (name target) "db")
  || (includes (name source') "frontend" && includes (name target) "api")
  || (includes (name source') "api" && includes (name target) "auth")
  || (includes (name source') "api" && includes (name target) "payment").

(** The body of [for (const target of services)]: what one ordered
    pair pushes. *)
Definition namingEdges (source' target : ConsulService) : list ServiceConnection :=
  if String.eqb (id source') (id target) then []
  else if namingCondition source' target
       then [inferredConnection source' target "http"]
       else [].

Definition namingConnections (services : list ConsulService)
    (source' : ConsulService) : list ServiceConnection :=
  flat_map (namingEdges source') services.

(** The body of [for (const source of services)]. *)
Definition inferredFrom (services : list ConsulService)
    (source' : ConsulService) : list ServiceConnection :=
  metadataConnections services source' ++ namingConnections services source'.

(** The connections pushed before the final [map]. The outer
    [try/catch] has nothing to catch: [getServices] handles its own
    failures and the synthesis does not throw. *)
Definition collectConnections (b : Backend) : list ServiceConnection :=
  let connections := intentionConnections b in
  if (length connections =? 0)%nat then
    let services := getServices b in
    connections ++ flat_map (inferredFrom services) services
  else connections.

Definition getServiceConnections (b : Backend) : list ServiceConnection :=
  map enhanceConnectionWithMetrics (collectConnections b).

Definition isFailingConnection (conn : ServiceConnection) : bool :=
  ConnectionStatus_eqb (status conn) degraded
  || ConnectionStatus_eqb (status conn) blocked
  || ConnectionStatus_eqb (status conn) failing.

Definition getFailingConnections (b : Backend) : list ServiceConnection :=
  List.filter isFailingConnection (getServiceConnections b).

End Synthesis.

End ConsulClient.
Import ConsulClient.

(** ** resources/services.ts *)

Module ServiceManager.

Record ServiceDetails : Type := {
  service : ConsulService;
  incoming : list ServiceConnection;
  outgoing : list ServiceConnection;
  healthStatus : string;
  checkCount : nat;
  incomingConnectionCount : nat;
  outgoingConnectionCount : nat;
  hasFailingConnections : bool;
  hasFailingHealthChecks : bool
}.

Record ServiceMetrics : Type := {
  serviceName : string;
  cpu_usage : float;
  cpu_cores : float;
  memory_used : float;
  memory_total : float;
  network_rxBytes : float;
  network_txBytes : float;
  requestRate : float;
  errorRate : float;
  responseTime_p50 : float;
  responseTime_p90 : float;
  responseTime_p99 : float
}.

Record ServiceDependencyInfo : Type := {
  dep_serviceName : string;
  dependencies : list string;
  dependents : list string;
  dep_connections : list ServiceConnection
}.

Definition failingStatus (c : ServiceConnection) : bool :=
  ConnectionStatus_eqb (status c) degraded
  || ConnectionStatus_eqb (status c) failing
  || ConnectionStatus_eqb (status c) blocked.

(** *** enrichServiceDetails *)
Definition enrichServiceDetails (service' : ConsulService)
    (connections : list ServiceConnection) : ServiceDetails :=
  let incomingConnections :=
    List.filter (fun conn => String.eqb (destination conn) (name service')) connections in
  let outgoingConnections :=
    List.filter (fun conn => String.eqb (source conn) (name service')) connections in
  {| service := service';
     incoming := incomingConnections;
     outgoing := outgoingConnections;
     healthStatus := health_status (health service');
     checkCount := length (health_checks (health service'));
     incomingConnectionCount := length incomingConnections;
     outgoingConnectionCount := length outgoingConnections;
     hasFailingConnections :=
       existsb failingStatus incomingConnections
       || existsb failingStatus outgoingConnections;
     hasFailingHealthChecks :=
       existsb isFailingCheck (health_checks (health service')) |}.

(** The generator closure as a state transformer on its captured seed. *)
Definition Rand (A : Type) : Type := Z -> A * Z.

Definition ret {A : Type} (a : A) : Rand A := fun seed => (a, seed).

Definition bind {A B : Type} (m : Rand A) (k : A -> Rand B) : Rand B :=
  fun seed => let '(a, seed') := m seed in k a seed'.

Notation "'draw' x <~ m ;; k" := (bind m (fun x => k))
  (at level 10, x name, m at level 9, k at level 200).

Section WithPlatform.
Context `{Platform}.

Definition rand : Rand float := seededRandom.

(** *** getServiceByName *)
Definition getServiceByName (b : Backend) (serviceName' : string)
    : option ServiceDetails :=
  let services := getServices b in
  let connections := getServiceConnections b in
  match find (fun s => String.eqb (name s) serviceName') services with
  | Some service' => Some (enrichServiceDetails service' connections)
  | None => None
  end.

(** *** getAllServices *)
Definition getAllServices (b : Backend) : list ServiceDetails :=
  let services := getServices b in
  let connections := getServiceConnections b in
  map (fun service' => enrichServiceDetails service' connections) services.

(** *** getServiceMetrics

    The draws happen in the evaluation order of the object literal. *)
Definition drawMetrics (serviceName' : string) : Rand ServiceMetrics :=
  draw usage <~ rand ;;
  draw cores <~ rand ;;
  draw used <~ rand ;;
  draw rx <~ rand ;;
  draw tx <~ rand ;;
  draw rate <~ rand ;;
  draw err <~ rand ;;
  draw p50 <~ rand ;;
  draw p90 <~ rand ;;
  draw p99 <~ rand ;;
  ret {| serviceName := serviceName';
         cpu_usage := (usage * 0.8)%float;
         cpu_cores := (Math_floor (cores * 4) + 1)%float;
         memory_used := (Math_floor (used * 900) + 100)%float;
         memory_total := 1024%float;
         network_rxBytes := Math_floor (rx * 100000)%float;
         network_txBytes := Math_floor (tx * 100000)%float;
         requestRate := Math_floor (rate * 1000)%float;
         errorRate := (err * 0.1)%float;
         responseTime_p50 := (Math_floor (p50 * 100) + 20)%float;
         responseTime_p90 := (Math_floor (p90 * 200) + 100)%float;
         responseTime_p99 := (Math_floor (p99 * 500) + 200)%float |}.

Definition getServiceMetrics (serviceName' : string) : ServiceMetrics :=
  let seed := hashString serviceName' in
  fst (drawMetrics serviceName' seed).

(** *** getFailingServices *)
Definition getFailingServices (b : Backend) : list ServiceDetails :=
  let services := getServices b in
  let connections := getServiceConnections b in
  let failingServices :=
    List.filter
      (fun service' =>
         String.eqb (health_status (health service')) "critical"
         || String.eqb (health_status (health service')) "warning")
      services in
  map (fun service' => enrichServiceDetails service' connections) failingServices.

(** *** getServiceDependencies *)
Definition getServiceDependencies (b : Backend) (serviceName' : string)
    : ServiceDependencyInfo :=
  let connections := getServiceConnections b in
  let dependencies' :=
    map destination
        (List.filter (fun conn => String.eqb (source conn) serviceName') connections) in
  let dependents' :=
    map source
        (List.filter (fun conn => String.eqb (destination conn) serviceName') connections) in
  {| dep_serviceName := serviceName';
     dependencies := uniq dependencies';
     dependents := uniq dependents';
     dep_connections :=
       List.filter
         (fun conn =>
            String.eqb (source conn) serviceName'
            || String.eqb (destination conn) serviceName')
         connections |}.

End WithPlatform.

End ServiceManager.

(** ** resources/health.ts *)

Module HealthManager.

Record HealthSummary : Type := {
  total : nat;
  passing : nat;
  warning : nat;
  critical : nat;
  unknown : nat;
  failingChecksByService : list (string * nat);
  overallStatus : HealthStatus
}.

Definition countStatus (st : string) (checks : list HealthCheck) : nat :=
  length (List.filter (fun check => String.eqb (check_status check) st) checks).

(** [failingChecksMap.set(k, (failingChecksMap.get(k) || 0) + 1)] on a
    [Map], which keeps insertion order. *)
Fixpoint increment (m : list (string * nat)) (k : string) : list (string * nat) :=
  match m with
  | [] => [(k, 1%nat)]
  | (k', n) :: tl =>
      if String.eqb k k' then (k', S n) :: tl else (k', n) :: increment tl k
  end.

Definition truthy (s : option string) : option string :=
  match s with
  | Some EmptyString => None
  | other => other
  end.

Definition countFailing (m : list (string * nat)) (check : HealthCheck)
    : list (string * nat) :=
  if isFailingCheck check then
    match truthy (check_serviceName check) with
    | Some serviceName => increment m serviceName
    | None => m
    end
  else m.

(** *** getHealthSummary *)
Definition summarize (allChecks : list HealthCheck) : HealthSummary :=
  let passingCount := countStatus "passing" allChecks in
  let warningCount := countStatus "warning" allChecks in
  let criticalCount := countStatus "critical" allChecks in
  let unknownCount := countStatus "unknown" allChecks in
  let failingChecksMap := fold_left countFailing allChecks [] in
  {| total := length allChecks;
     passing := passingCount;
     warning := warningCount;
     critical := criticalCount;
     unknown := unknownCount;
     failingChecksByService := sortByCount failingChecksMap;
     overallStatus :=
       if (0 <? criticalCount)%nat then "critical"
       else if (0 <? warningCount)%nat then "warning"
       else "passing" |}.

Definition getHealthSummary (b : Backend) : HealthSummary :=
  summarize (ConsulClient.getAllHealthChecks b).

(** *** analyzeHealthIssues *)

Record Pattern : Type := {
  pattern_type : string;
  pattern_count : nat;
  affectedServices : list string
}.

Record HealthAnalysis : Type := {
  patterns : list Pattern;
  analysis_recommendations : list string
}.

(** [[...new Set(checks.map(c => c.serviceName).filter(Boolean))]] *)
Definition affected (checks : list HealthCheck) : list string :=
  uniq (flat_map
          (fun c => match truthy (check_serviceName c) with
                    | Some serviceName => [serviceName]
                    | None => []
                    end)
          checks).

(** One of the four blocks of analyzeHealthIssues: the checks that pass
    the test of the block and, when there is one, the pattern and the
    recommendation the block pushes. *)
Definition scan (type' recommendation : string) (test : HealthCheck -> bool)
    (failingChecks : list HealthCheck) : list (Pattern * string) :=
  let hits := List.filter test failingChecks in
  if (0 <? length hits)%nat then
    [ ({| pattern_type := type';
          pattern_count := length hits;
          affectedServices := affected hits |},
       recommendation) ]
  else [].

Definition isTimeout (check : HealthCheck) : bool :=
  includes (toLowerCase (check_output check)) "timeout".

Definition isConnectionRefused (check : HealthCheck) : bool :=
  includes (toLowerCase (check_output check)) "connection refused"
  || includes (toLowerCase (check_output check)) "connect".

Definition isDiskSpace (check : HealthCheck) : bool :=
  includes (toLowerCase (check_output check)) "disk"
  || includes (toLowerCase (check_output check)) "storage".

Definition isHttpError (check : HealthCheck) : bool :=
  testHttpStatus (check_output check).

Definition classify (failingChecks : list HealthCheck) : HealthAnalysis :=
  let found :=
    scan "timeout"
         "Several services are experiencing timeouts. Consider checking network connectivity and service response times."
         isTimeout failingChecks
    ++ scan "connection_refused"
         "Connection refused errors detected. Verify that all services are running and accepting connections."
         isConnectionRefused failingChecks
    ++ scan "disk_space"
         "Disk space issues detected. Consider cleaning up logs or adding more storage."
         isDiskSpace failingChecks
    ++ scan "http_error"
         "HTTP errors detected. Review service logs for error details and check for recent deployments or configuration changes."
         isHttpError failingChecks in
  let found :=
    if (length found =? 0)%nat && (0 <? length failingChecks)%nat then
      found
      ++ [ ({| pattern_type := "miscellaneous";
               pattern_count := length failingChecks;
               affectedServices := affected failingChecks |},
            "Investigate each failing service individually to determine the cause of health check failures.") ]
    else found in
  {| patterns := map fst found; analysis_recommendations := map snd found |}.

Definition analyzeHealthIssues (b : Backend) : HealthAnalysis :=
  classify (ConsulClient.getFailingHealthChecks b).

(** *** enrichHealthCheck *)

Inductive Severity : Type := high | medium | low.

Record CheckAnalysis : Type := {
  possibleIssues : list string;
  remediation : list string;
  severity : Severity
}.

Record EnrichedHealthCheck : Type := {
  enriched : HealthCheck;
  analysis : CheckAnalysis
}.

(** [statusCode?.startsWith(d)] on the captured status code. *)
Definition startsWith (s : option string) (d : string) : bool :=
  match s with
  | Some code => String.prefix d code
  | None => false
  end.

Definition enrichHealthCheck (check : HealthCheck) : EnrichedHealthCheck :=
  let output := toLowerCase (check_output check) in
  let statusCode := matchHttpStatus output in
  let byStatus : list string * list string :=
    if String.eqb (check_status check) "critical" then
      (["Service may be down or unreachable"],
       ["Check if the service is running"; "Verify network connectivity to the service"])
    else if String.eqb (check_status check) "warning" then
      (["Service is degraded but still functional"],
       ["Monitor the service for further degradation"])
    else ([], []) in
  let byTimeout : list string * list string :=
    if includes output "timeout" then
      (["Request timeout"],
       ["Check if the service is overloaded"; "Consider increasing the timeout threshold"])
    else ([], []) in
  let byRefused : list string * list string :=
    if includes output "connection refused" then
      (["Service is not accepting connections"],
       ["Ensure the service is running"; "Check if firewall rules are blocking connections"])
    else ([], []) in
  let byDisk : list string * list string :=
    if includes output "disk" || includes output "storage" then
      (["Disk space or storage issue"],
       ["Clean up logs or temporary files"; "Add additional storage if needed"])
    else ([], []) in
  let byHttp : list string * list string :=
    if testHttpStatus output then
      (["HTTP " +:+ default "undefined" statusCode +:+ " error"],
       if startsWith statusCode "4" then
         ["Check service configuration and request parameters"]
       else if startsWith statusCode "5" then
         ["Check service logs for internal errors";
          "Verify that dependencies are available"]
       else [])
    else ([], []) in
  let possibleIssues' :=
    fst byStatus ++ fst byTimeout ++ fst byRefused ++ fst byDisk ++ fst byHttp in
  let remediation' :=
    snd byStatus ++ snd byTimeout ++ snd byRefused ++ snd byDisk ++ snd byHttp in
  {| enriched := check;
     analysis :=
       {| possibleIssues :=
            if (0 <? length possibleIssues')%nat then possibleIssues' else ["Unknown issue"];
          remediation :=
            if (0 <? length remediation')%nat then remediation'
            else ["Investigate service logs"];
          severity :=
            if String.eqb (check_status check) "critical" then high
            else if String.eqb (check_status check) "warning" then medium
            else low |} |}.

(** *** getAllHealthChecks, getFailingHealthChecks (enriched) *)
Definition getAllHealthChecks (b : Backend) : list EnrichedHealthCheck :=
  map enrichHealthCheck (ConsulClient.getAllHealthChecks b).

Definition getFailingHealthChecks (b : Backend) : list EnrichedHealthCheck :=
  map enrichHealthCheck (ConsulClient.getFailingHealthChecks b).

End HealthManager.

(** ** tools/status-analyzer.ts *)

Module ServiceAnalyzer.

Import ServiceManager.

Record ServiceAnalysis : Type := {
  issues : list string;
  recommendations : list string
}.

Record MeshAnalysis : Type := {
  mesh_summary : string;
  mesh_issues : list string;
  mesh_recommendations : list string
}.

(** An [async] function either rejects with [new Error(message)] or
    resolves. *)
Inductive Outcome (A : Type) : Type :=
| Rejected (message : string)
| Resolved (a : A).
Arguments Rejected {A} message.
Arguments Resolved {A} a.

(** [cond ? [x] : []], the effect of a guarded [push]. *)
Definition when (cond : bool) (l : list string) : list string :=
  if cond then l else [].

(** *** Insertion-ordered [Map] and [Set] *)

Fixpoint mapGet {V : Type} (m : list (string * V)) (k : string) : option V :=
  match m with
  | [] => None
  | (k', v) :: tl => if String.eqb k k' then Some v else mapGet tl k
  end.

Fixpoint mapSet {V : Type} (m : list (string * V)) (k : string) (v : V)
    : list (string * V) :=
  match m with
  | [] => [(k, v)]
  | (k', v') :: tl =>
      if String.eqb k k' then (k', v) :: tl else (k', v') :: mapSet tl k v
  end.

Definition setHas (s : list string) (x : string) : bool :=
  existsb (String.eqb x) s.

Definition setAdd (s : list string) (x : string) : list string :=
  if setHas s x then s else s ++ [x].

(** *** Topology part of analyzeServiceMesh *)

Definition connectivityMap (services : list ConsulService)
    (connections : list ServiceConnection) : list (string * list string) :=
  let initial :=
    fold_left (fun m service' => mapSet m (name service') []) services [] in
  fold_left
    (fun m conn =>
       match mapGet m (source conn) with
       | Some outgoing' => mapSet m (source conn) (setAdd outgoing' (destination conn))
       | None => m
       end)
    connections initial.

Definition isolatedServices (serviceConnectivityMap : list (string * list string))
    : list string :=
  flat_map
    (fun entry : string * list string =>
       let '(serviceName', connections) := entry in
       let hasIncoming := (0 <? length connections)%nat in
       let hasOutgoing :=
         existsb (fun outgoing' => setHas outgoing' serviceName')
                 (map snd serviceConnectivityMap) in
       if negb hasIncoming && negb hasOutgoing then [serviceName'] else [])
    serviceConnectivityMap.

Definition bump (counts : list (string * nat)) (k : string) (n : nat)
    : list (string * nat) :=
  mapSet counts k (default 0%nat (mapGet counts k) + n)%nat.

Definition connectionCounts (serviceConnectivityMap : list (string * list string))
    : list (string * nat) :=
  fold_left
    (fun counts (entry : string * list string) =>
       let '(serviceName', outgoing') := entry in
       let counts := bump counts serviceName' (length outgoing') in
       fold_left (fun counts target => bump counts target 1%nat) outgoing' counts)
    serviceConnectivityMap [].

Definition mostConnected (counts : list (string * nat)) : list string :=
  map fst
    (List.filter (fun entry : string * nat => (2 <? snd entry)%nat)
            (firstn 3 (sortByCount counts))).

(** The label of a failing pair. The template separates the endpoints
    by the three characters U+00E2 U+2020 U+2019 between spaces; they are
    carried as the bytes of their UTF-8 encoding. *)
Definition pairLabel (conn : ServiceConnection) : string :=
  source conn +:+ " â†’ " +:+ destination conn.

(** *** analyzeServiceMesh on fetched data *)
Definition analyzeMesh (services : list ConsulService)
    (connections : list ServiceConnection)
    (healthSummary : HealthManager.HealthSummary) : MeshAnalysis :=
  let critical := HealthManager.critical healthSummary in
  let warning := HealthManager.warning healthSummary in
  let failingConnections := List.filter failingStatus connections in
  let pairs := uniq (map pairLabel failingConnections) in
  let isolated := isolatedServices (connectivityMap services connections) in
  let connected := mostConnected (connectionCounts (connectivityMap services connections)) in
  let issues :=
    when (0 <? critical)%nat
      [natToString critical +:+ " services have critical health checks"]
    ++ when (0 <? warning)%nat
      [natToString warning +:+ " services have warning health checks"]
    ++ when (0 <? length failingConnections)%nat
      ([natToString (length failingConnections) +:+ " connections are experiencing issues"]
       ++ (if (3 <? length pairs)%nat then
             ["Key problematic connections: " +:+ join ", " (firstn 3 pairs) +:+ " and others"]
           else if (0 <? length pairs)%nat then
             ["Problematic connections: " +:+ join ", " pairs]
           else []))
    ++ when (0 <? length isolated)%nat
      [natToString (length isolated) +:+ " services appear to be isolated: "
         +:+ join ", " isolated] in
  let recommendations :=
    when (0 <? length isolated)%nat
      ["Review isolated services to determine if they should be connected to the mesh"]
    ++ when (0 <? length connected)%nat
      ["Critical path services with most connections: " +:+ join ", " connected
         +:+ ". Consider monitoring these closely."] in
  let summary :=
    "Service mesh has " +:+ natToString (length services) +:+ " services with "
      +:+ natToString (length connections) +:+ " connections. "
      +:+ (if (0 <? critical)%nat || (0 <? warning)%nat then
             "There are " +:+ natToString critical +:+ " critical and "
               +:+ natToString warning +:+ " warning health issues. "
           else "All services have passing health checks. ")
      +:+ (if (0 <? length failingConnections)%nat then
             natToString (length failingConnections)
               +:+ " connections are experiencing issues."
           else "All connections are healthy.") in
  let empty := (length issues =? 0)%nat in
  {| mesh_summary := summary;
     mesh_issues :=
       issues ++ when empty ["No issues detected in the service mesh"];
     mesh_recommendations :=
       uniq (recommendations
             ++ when empty ["Continue monitoring service health and connections"]) |}.

Section WithPlatform.
Context `{Platform}.

(** *** analyzeServiceMesh *)
Definition analyzeServiceMesh (b : Backend) : MeshAnalysis :=
  let services := getServices b in
  let connections := getServiceConnections b in
  let healthSummary := HealthManager.getHealthSummary b in
  analyzeMesh services connections healthSummary.

(** The metrics block of analyzeService: pairs of pushed issue and
    recommendation, in order. *)
Definition metricFindings (metrics : ServiceMetrics) : list (string * string) :=
  (if gt (errorRate metrics) 0.05 then
     [("High error rate: " +:+ Number_toFixed (errorRate metrics * 100)%float 1 +:+ "%",
       "Investigate application logs for errors")]
   else [])
  ++ (if gt (cpu_usage metrics) 0.8 then
        [("High CPU usage: " +:+ Number_toFixed (cpu_usage metrics * 100)%float 1 +:+ "%",
          "Consider scaling horizontally or optimizing resource usage")]
      else [])
  ++ (if gt (memory_used metrics / memory_total metrics)%float 0.9 then
        [("High memory usage: " +:+ Number_toString (memory_used metrics) +:+ "/"
            +:+ Number_toString (memory_total metrics) +:+ " MB",
          "Check for memory leaks or increase memory allocation")]
      else [])
  ++ (if gt (responseTime_p99 metrics) 500 then
        [("Slow response times (p99): "
            +:+ Number_toString (responseTime_p99 metrics) +:+ "ms",
          "Optimize critical paths or add caching")]
      else []).

(** The body of analyzeService once the service has been found. *)
Definition analyzeFound (serviceName' : string) (details : ServiceDetails)
    : ServiceAnalysis :=
  let failingChecks :=
    List.filter isFailingCheck (health_checks (health (service details))) in
  let checkOutputs := map (fun check => toLowerCase (check_output check)) failingChecks in
  let checkIssues :=
    when (hasFailingHealthChecks details)
      (map (fun check =>
              "Health check " +:+ dquote +:+ check_name check +:+ dquote +:+ " is "
                +:+ check_status check +:+ ": " +:+ check_output check)
           failingChecks) in
  let checkRecommendations :=
    when (hasFailingHealthChecks details)
      (when (existsb (fun output => includes output "timeout") checkOutputs)
         ["Check for slow response times or overloaded resources"]
       ++ when (existsb (fun output => includes output "connection refused") checkOutputs)
         ["Verify the service is running and accepting connections"]
       ++ when (existsb (fun output => includes output "disk" || includes output "storage")
                        checkOutputs)
         ["Increase available disk space or clean up logs/temporary files"]
       ++ when (existsb testHttpStatus checkOutputs)
         ["Investigate HTTP errors in service logs"]) in
  let failingIncoming := List.filter failingStatus (incoming details) in
  let sources := uniq (map source failingIncoming) in
  let failingOutgoing := List.filter failingStatus (outgoing details) in
  let destinations := uniq (map destination failingOutgoing) in
  let meshConnections := List.filter usesServiceMesh (incoming details ++ outgoing details) in
  let blockedConnections :=
    List.filter (fun conn => ConnectionStatus_eqb (status conn) blocked) meshConnections in
  let metrics := getServiceMetrics serviceName' in
  let issues :=
    checkIssues
    ++ when (0 <? length failingIncoming)%nat
      [natToString (length failingIncoming) +:+ " incoming connections are experiencing issues"]
    ++ when (0 <? length failingOutgoing)%nat
      [natToString (length failingOutgoing) +:+ " outgoing connections are experiencing issues"]
    ++ when ((0 <? length meshConnections)%nat && (0 <? length blockedConnections)%nat)
      [natToString (length blockedConnections)
         +:+ " connections are blocked by service mesh intentions"]
    ++ map fst (metricFindings metrics) in
  let recommendations :=
    checkRecommendations
    ++ when ((0 <? length failingIncoming)%nat && (0 <? length sources)%nat)
      ["Check connectivity from services: " +:+ join ", " sources]
    ++ when ((0 <? length failingOutgoing)%nat && (0 <? length destinations)%nat)
      ["Check connectivity to services: " +:+ join ", " destinations]
    ++ when ((0 <? length meshConnections)%nat && (0 <? length blockedConnections)%nat)
      ["Review service mesh intentions to ensure they match expected traffic patterns"]
    ++ map snd (metricFindings metrics) in
  let empty := (length issues =? 0)%nat in
  {| issues := issues ++ when empty ["No issues detected"];
     recommendations :=
       uniq (recommendations ++ when empty ["Continue monitoring service health"]) |}.

(** *** analyzeService *)
Definition analyzeService (b : Backend) (serviceName' : string)
    : Outcome ServiceAnalysis :=
  match getServiceByName b serviceName' with
  | None => Rejected ("Service " +:+ serviceName' +:+ " not found")
  | Some details => Resolved (analyzeFound serviceName' details)
  end.

End WithPlatform.

End ServiceAnalyzer.

(** ** mcp/actions.ts and the REST handlers

    The analyze-service tool and route. Both answer with a JSON text; the
    embedding keeps the value that is serialized. *)

Module Actions.

Import ServiceManager ServiceAnalyzer.

Record ServiceReport : Type := {
  report_name : string;
  report_health : ServiceHealth;
  report_incoming : list ServiceConnection;
  report_outgoing : list ServiceConnection
}.

Record ToolResult : Type := {
  tool_service : ServiceReport;
  tool_metrics : ServiceMetrics;
  tool_analysis : ServiceAnalysis
}.

(** The body of a REST answer: an error object, or the service report
    with the four selected metrics and the analysis. *)
Inductive ApiBody : Type :=
| ErrorBody (error : string) (message : option string)
| ServiceBody (report : ServiceReport)
    (cpu_usage' memory_usage request_rate error_rate : float)
    (analysis' : ServiceAnalysis).

Record HttpResponse : Type := {
  statusCode : nat;
  body : ApiBody
}.

(** Truthiness of [req.params.serviceName]. *)
Definition truthyParam (s : option string) : option string :=
  match s with
  | Some EmptyString => None
  | other => other
  end.

Definition reportOf (serviceDetails : ServiceDetails) : ServiceReport :=
  {| report_name := name (service serviceDetails);
     report_health := health (service serviceDetails);
     report_incoming := incoming serviceDetails;
     report_outgoing := outgoing serviceDetails |}.

Section WithPlatform.
Context `{Platform}.

(** *** The ANALYZE_SERVICE tool; [service_name] defaults to "consul" *)
Definition analyzeServiceTool (b : Backend) (service_name : option string)
    : Outcome ToolResult :=
  let service_name := default "consul" service_name in
  match getServiceByName b service_name with
  | None => Rejected ("Service " +:+ service_name +:+ " not found")
  | Some serviceDetails =>
      match analyzeService b service_name with
      | Rejected message => Rejected message
      | Resolved analysis' =>
          let metrics := getServiceMetrics service_name in
          Resolved {| tool_service := reportOf serviceDetails;
                      tool_metrics := metrics;
                      tool_analysis := analysis' |}
      end
  end.

(** *** ApiHandlers.analyzeService *)
Definition analyzeServiceRoute (b : Backend) (serviceName' : option string)
    : HttpResponse :=
  match truthyParam serviceName' with
  | None =>
      {| statusCode := 400; body := ErrorBody "Service name is required" None |}
  | Some serviceName' =>
      match getServiceByName b serviceName' with
      | None =>
          {| statusCode := 404;
             body := ErrorBody ("Service " +:+ serviceName' +:+ " not found") None |}
      | Some serviceDetails =>
          match analyzeService b serviceName' with
          | Rejected message =>
              {| statusCode := 500;
                 body := ErrorBody "Failed to analyze service" (Some message) |}
          | Resolved analysis' =>
              let metrics := getServiceMetrics serviceName' in
              {| statusCode := 200;
                 body :=
                   ServiceBody (reportOf serviceDetails)
                     (cpu_usage metrics)
                     (memory_used metrics / memory_total metrics)%float
                     (requestRate metrics)
                     (ServiceManager.errorRate metrics)
                     analysis' |}
          end
      end
  end.

End WithPlatform.

End Actions.

(** ** tools/diagram-generator.ts *)

Module DiagramGenerator.

Record DiagramOptions : Type := {
  includeHealth : bool;
  includeMetrics : bool
}.

(** The class [[a-zA-Z0-9]]. *)
Definition isAlnum (c : ascii) : bool :=
  inRange 97 122 c || inRange 65 90 c || inRange 48 57 c.

(** *** formatId: [name.replace(/[^a-zA-Z0-9]/g, '_')] *)
Definition formatId (name' : string) : string :=
  replaceAllClass (fun c => negb (isAlnum c)) "_" name'.

(** *** getHealthStyle *)
Definition getHealthStyle (status' : string) : string :=
  if String.eqb status' "critical" then ":::critical"
  else if String.eqb status' "warning" then ":::warning"
  else if String.eqb status' "passing" then ":::healthy"
  else EmptyString.

(** *** getConnectionStyle *)
Definition getConnectionStyle (status' : ConnectionStatus) : string :=
  match status' with
  | degraded | failing => ":::failingConn"
  | warning => ":::warningConn"
  | blocked => ":::failingConn"
  | _ => EmptyString
  end.

Definition newline : string := String "010"%char EmptyString.

(** Truthiness of an optional number: [undefined], zero and NaN are
    falsy. *)
Definition truthyNumber (x : option float) : option float :=
  match x with
  | Some v => if PrimFloat.eqb v 0 || PrimFloat.is_nan v then None else Some v
  | None => None
  end.

Section WithPlatform.
Context `{Platform}.

Definition nodeLine (options : DiagramOptions) (service' : ConsulService) : string :=
  let serviceId := formatId (name service') in
  if includeHealth options then
    "    " +:+ serviceId +:+ "[" +:+ dquote +:+ name service'
      +:+ dquote +:+ "]"
      +:+ getHealthStyle (health_status (health service')) +:+ newline
  else
    "    " +:+ serviceId +:+ "[" +:+ dquote +:+ name service'
      +:+ dquote +:+ "]" +:+ newline.

Definition edgeLine (options : DiagramOptions) (connection : ServiceConnection) : string :=
  let sourceId := formatId (source connection) in
  let targetId := formatId (destination connection) in
  let connectionStyle := getConnectionStyle (status connection) in
  let label :=
    match (if includeMetrics options then truthyNumber (latency connection) else None) with
    | Some l => " |" +:+ Number_toString l +:+ "ms|"
    | None => EmptyString
    end in
  "  " +:+ sourceId +:+ " -->" +:+ label +:+ " " +:+ targetId
    +:+ connectionStyle +:+ newline.

Definition legend : string :=
  newline +:+ "  %% Legend" +:+ newline
  +:+ "  subgraph " +:+ dquote +:+ "Legend" +:+ dquote +:+ newline
  +:+ "    healthy[" +:+ dquote +:+ "Healthy Service" +:+ dquote
  +:+ "]:::healthy" +:+ newline
  +:+ "    warning[" +:+ dquote +:+ "Warning Service" +:+ dquote
  +:+ "]:::warning" +:+ newline
  +:+ "    critical[" +:+ dquote +:+ "Critical Service" +:+ dquote
  +:+ "]:::critical" +:+ newline
  +:+ "    healthy_conn[" +:+ dquote +:+ "Healthy Connection"
  +:+ dquote +:+ "];" +:+ newline
  +:+ "    warning_conn[" +:+ dquote +:+ "Warning Connection"
  +:+ dquote +:+ "]:::warningConn;" +:+ newline
  +:+ "    failing_conn[" +:+ dquote +:+ "Failing Connection"
  +:+ dquote +:+ "]:::failingConn;" +:+ newline
  +:+ "  end" +:+ newline +:+ newline.

Definition styles : string :=
  "  %% Styles" +:+ newline
  +:+ "  classDef healthy fill:#baffc9,stroke:#00ae11,color:#000" +:+ newline
  +:+ "  classDef warning fill:#ffffba,stroke:#ffae00,color:#000" +:+ newline
  +:+ "  classDef critical fill:#ffb3ba,stroke:#ff0000,color:#000" +:+ newline
  +:+ "  classDef warningConn stroke:#ffae00,stroke-width:2px" +:+ newline
  +:+ "  classDef failingConn stroke:#ff0000,stroke-width:2px,stroke-dasharray: 5 5"
  +:+ newline.

(** *** generateServiceDiagram *)
Definition generateServiceDiagram (services : list ConsulService)
    (connections : list ServiceConnection) (options : DiagramOptions) : string :=
  "flowchart TD" +:+ newline
  +:+ "  subgraph " +:+ dquote +:+ "Consul Service Mesh"
  +:+ dquote +:+ newline
  +:+ String.concat EmptyString (map (nodeLine options) services)
  +:+ "  end" +:+ newline +:+ newline
  +:+ String.concat EmptyString (map (edgeLine options) connections)
  +:+ legend +:+ styles.

End WithPlatform.

End DiagramGenerator.

(** ** A sample platform and sample registries

    [Sample.sine] tabulates the binary64 sine at the arguments the
    examples below draw: the seeds of the connections "a-b",
    "api-auth-service", "order-service-db" and "order-service-cache" with
    the three successors of each, and the seed of the service "db" with
    its nine successors. It is zero elsewhere, and no example draws
    elsewhere. The two conversions print the integral part of a number in
    decimal; the examples print integers only. *)

Module Sample.

Definition sineTable : list (Z * float) :=
  [ (94710, (-0x1.94ac18eeab2dfp-2)%float);
    (94711, (-0x1.f9160ec2ee370p-1)%float);
    (94712, (-0x1.577659e3093e8p-1)%float);
    (94713, 0x1.0be0dfd1d96d3p-2%float);
    (167394205, 0x1.c1bb2e9d88cecp-1%float);
    (167394206, 0x1.c0e9803688957p-1%float);
    (167394207, 0x1.1aec2c6eb80b3p-4%float);
    (167394208, (-0x1.9ab239399e715p-1)%float);
    (1489591925, 0x1.51e78d9f747efp-2%float);
    (1489591926, 0x1.f1fc603ea6a4ap-1%float);
    (1489591927, 0x1.712c6d8fc80bcp-1%float);
    (1489591928, (-0x1.8c388806b2bcap-3)%float);
    (830080555, 0x1.76e5f5bfedaf2p-5%float);
    (830080556, (-0x1.a1b8cb4b89d6dp-1)%float);
    (830080557, (-0x1.dad2c3f08e4d8p-1)%float);
    (830080558, (-0x1.7d7f623d46452p-3)%float);
  (3198, (-0x1.2076b567dfe6fp-3)%float);
  (3199, 0x1.8392db3d2ead7p-1%float);
  (3200, 0x1.eaee07ec935c4p-1%float);
  (3201, 0x1.1ddace8fb2e51p-2%float);
  (3202, (-0x1.507b5a54be285p-1)%float);
  (3203, (-0x1.fa87fc425fe27p-1)%float);
  (3204, (-0x1.a5c195cb678f8p-2)%float);
  (3205, 0x1.16a7c502ea9d1p-1%float);
  (3206, 0x1.fffe8ddcf5179p-1%float);
  (3207, 0x1.129bacfaf9c80p-1%float) ].

Definition sine (x : float) : float :=
  match find (fun entry : Z * float => PrimFloat.eqb x (ofZ (fst entry))) sineTable with
  | Some entry => snd entry
  | None => 0%float
  end.

Definition integral (x : float) : string :=
  match Prim2SF x with
  | S754_zero _ => "0"
  | S754_finite s m e =>
      intToString (Z.shiftl (if s then Z.neg m else Z.pos m) e)
  | _ => "NaN"
  end.

#[export] Instance platform : Platform :=
  {| Math_sin := sine;
     Number_toString := integral;
     Number_toFixed := fun x _ => integral x |}.

(** A hypothetical engine whose sine is constantly zero: every draw of
    the generator is then 0. *)
Definition flat : Platform :=
  {| Math_sin := fun _ => 0%float;
     Number_toString := integral;
     Number_toFixed := fun x _ => integral x |}.

Definition mkNode (id' name' : string) (meta' : option (gmap string string)) : Node.t :=
  {| Node.ServiceID := id';
     Node.ServiceName := name';
     Node.ServiceAddress := EmptyString;
     Node.Address := "10.0.0.1";
     Node.ServicePort := 8080;
     Node.Node := "node1";
     Node.ServiceTags := None;
     Node.ServiceMeta := meta' |}.

Definition mkCheck (name' status' output' serviceId' : string) : Check.t :=
  {| Check.Name := name';
     Check.Status := status';
     Check.Output := output';
     Check.Notes := None;
     Check.ServiceID := serviceId';
     Check.ServiceName := Some serviceId' |}.

(** A registry given by its catalog (service name and nodes), its
    checks and the answer of the intentions query. *)
Definition registry (catalog : list (string * list Node.t))
    (checks : list (string * Check.t))
    (intentions : Response (list Intention.t)) : Backend :=
  {| catalog_service_list := Value (map fst catalog);
     catalog_service_nodes := fun serviceName =>
       match find (fun entry : string * list Node.t => String.eqb (fst entry) serviceName)
                  catalog with
       | Some entry => Value (snd entry)
       | None => Value []
       end;
     agent_check_list := Value checks;
     connect_intentions_list := intentions |}.

End Sample.

(** * Notions used in the statements *)

Module Notions.

(** The precedence the specification states for a collection of check
    statuses: critical wins, then warning, otherwise passing. *)
Definition Precedence (statuses : list string) (result : string) : Prop :=
  (In "critical" statuses -> result = "critical")
  /\ (~ In "critical" statuses -> In "warning" statuses -> result = "warning")
  /\ (~ In "critical" statuses -> ~ In "warning" statuses -> result = "passing").

(** Whether a status occurs in a collection of statuses. *)
Definition has (st : string) (statuses : list string) : bool :=
  existsb (String.eqb st) statuses.

(** The checks attached to a service, in listing order. *)
Definition attached (serviceId : string) (checks : list (string * Check.t))
    : list (string * Check.t) :=
  List.filter (fun entry => String.eqb (Check.ServiceID (snd entry)) serviceId) checks.

(** The statuses of listed checks, in listing order. *)
Definition statuses (checks : list (string * Check.t)) : list string :=
  map (fun entry => Check.Status (snd entry)) checks.

(** The status update of one attached check. *)
Definition stepStatus (overallStatus status' : string) : string :=
  if String.eqb status' "critical" then "critical"
  else if String.eqb status' "warning" && negb (String.eqb overallStatus "critical")
       then "warning"
       else overallStatus.

(** Every answered node of every listed key carries that key as its
    service name (what the catalog endpoint answers). *)
Definition catalogConsistent (b : Backend) : bool :=
  match catalog_service_list b with
  | Value serviceNames =>
      forallb
        (fun key =>
           match catalog_service_nodes b key with
           | Value nodes => forallb (fun n => String.eqb (Node.ServiceName n) key) nodes
           | _ => true
           end)
        serviceNames
  | _ => true
  end.

(** The numeric fields of the per-service metrics. *)
Definition numbers (m : ServiceManager.ServiceMetrics) : list float :=
  [ ServiceManager.cpu_usage m; ServiceManager.cpu_cores m;
    ServiceManager.memory_used m; ServiceManager.memory_total m;
    ServiceManager.network_rxBytes m; ServiceManager.network_txBytes m;
    ServiceManager.requestRate m; ServiceManager.errorRate m;
    ServiceManager.responseTime_p50 m; ServiceManager.responseTime_p90 m;
    ServiceManager.responseTime_p99 m ].

(** A bare connection between two endpoints, before synthesis. *)
Definition edge (source' destination' : string) (status' : ConnectionStatus)
    : ServiceConnection :=
  {| source := source'; destination := destination'; status := status';
     protocol := "http"; usesServiceMesh := false; intentionAction := None;
     latency := None; errorRate := None; requestVolume := None;
     errorMessage := None |}.

(** The rule table of the naming heuristic, as the specification lists
    it, and the rules of the table that an ordered pair matches. *)
Definition rules : list (string * string) :=
  [ ("api", "service"); ("web", "api"); ("service", "db");
    ("frontend", "api"); ("api", "auth"); ("api", "payment") ].

Definition ruleMatches (s t : ConsulService) (rule : string * string) : bool :=
  includes (name s) (fst rule) && includes (name t) (snd rule).

Definition matchingRules (s t : ConsulService) : list (string * string) :=
  List.filter (ruleMatches s t) rules.

(** The services bearing a given name are those that pass [named]. *)
Definition named (n : string) (s : ConsulService) : bool := String.eqb (name s) n.

(** A connectivity map in which every outgoing set is empty. *)
Definition allEmpty (m : list (string * list string)) : Prop :=
  Forall (fun entry => snd entry = []) m.

(** The issue that reports the isolated services. *)
Definition isolatedText (isolated : list string) : string :=
  natToString (length isolated) +:+ " services appear to be isolated: "
    +:+ join ", " isolated.

(** The polynomial of the code units at 31, over the integers. *)
Definition poly31 (str : string) : Z :=
  fold_left (fun h c => 31 * h + charCode c) (list_ascii_of_string str) 0.

(** A status outside the four of [HealthStatus]. *)
Definition otherStatus (check : HealthCheck) : bool :=
  negb (String.eqb (check_status check) "passing"
        || String.eqb (check_status check) "warning"
        || String.eqb (check_status check) "critical"
        || String.eqb (check_status check) "unknown").



(** The record [getServiceHealth] and [getAllHealthChecks] build from a
    listed check, without the two service fields. *)
Definition checkCore (check : HealthCheck)
    : string * string * string * string * option string :=
  (check_id check, check_name check, check_status check, check_output check,
   check_notes check).

(** The texts [enrichHealthCheck] can put among the possible issues
    without the HTTP branch. *)
Definition knownIssues : list string :=
  [ "Service may be down or unreachable";
    "Service is degraded but still functional";
    "Request timeout";
    "Service is not accepting connections";
    "Disk space or storage issue";
    "Unknown issue" ].

(** The names of the known services, and the connections whose source
    is one of them. *)
Definition knownName (services : list ConsulService) (n : string) : Prop :=
  exists s, In s services /\ name s = n.

(** One connection read by the second loop of the topology analysis. *)
Definition readConnection (m : list (string * list string)) (conn : ServiceConnection)
    : list (string * list string) :=
  match ServiceAnalyzer.mapGet m (source conn) with
  | Some outgoing' =>
      ServiceAnalyzer.mapSet m (source conn)
        (ServiceAnalyzer.setAdd outgoing' (destination conn))
  | None => m
  end.

(** The characters of a diagram identifier. *)
Definition isIdChar (c : ascii) : bool :=
  DiagramGenerator.isAlnum c || Ascii.eqb c "_".

Definition allIdChars (s : string) : bool :=
  forallb isIdChar (list_ascii_of_string s).

Section WithPlatform.
Context `{Platform}.

(** The three numbers drawn for a pair of endpoints. *)
Definition drawn (source' destination' : string) : float * float * float :=
  let seed := hashString (source' +:+ "-" +:+ destination') in
  let '(r1, seed) := seededRandom seed in
  let '(r2, seed) := seededRandom seed in
  let '(r3, seed) := seededRandom seed in
  ((Math_floor (r1 * 450) + 50)%float, (r2 * 0.1)%float,
   (Math_floor (r3 * 990) + 10)%float).

(** The error rate drawn for a connection: the second draw, scaled. *)
Definition drawnErrorRate (c : ServiceConnection) : float :=
  snd (fst (drawn (source c) (destination c))).

(** The status after synthesis, as a function of the drawn error
    rate. *)
Definition rescored (c : ServiceConnection) : ConnectionStatus :=
  if ConnectionStatus_eqb (status c) blocked then blocked
  else if gt (drawnErrorRate c) 0.05 then degraded
  else if gt (drawnErrorRate c) 0 then warning
  else if ConnectionStatus_eqb (status c) inferred then healthy
  else status c.

End WithPlatform.

End Notions.

(** * Sample registries *)

Module Registries.
Import Sample.

(** Three catalog entries, one of them the agent's own; two services
    whose names trigger no inference rule; checks of every status. *)
Definition quiet : Backend :=
  registry
    [ ("consul", [mkNode "consul" "consul" None]);
      ("cache", [mkNode "cache-1" "cache" None]);
      ("db", [mkNode "db-1" "db" None]) ]
    [ ("c1", mkCheck "cache ping" "passing" "PONG" "cache-1");
      ("c2", mkCheck "db disk" "warning" "disk 91% full" "db-1");
      ("c3", mkCheck "db probe" "unknown" "no data" "db-1");
      ("c4", mkCheck "cache memory" "critical" "out of memory" "cache-1") ]
    Throws.

Definition quietChecks : list (string * Check.t) :=
  match agent_check_list quiet with
  | Value checks => checks
  | _ => []
  end.

(** A registry whose service "order-service" declares the upstreams
    "db,cache"; one service of each name exists; no intentions. *)
Definition declared : gmap string string :=
  {[ "upstream_services" := "db,cache" ]}.

Definition orders : Backend :=
  registry
    [ ("order-service", [mkNode "order-1" "order-service" (Some declared)]);
      ("db", [mkNode "db-1" "db" None]);
      ("cache", [mkNode "cache-1" "cache" None]) ]
    []
    (Value []).

(** The same registry with a declaring service named "billing", which
    no naming rule matches. *)
Definition billing : Backend :=
  registry
    [ ("billing", [mkNode "billing-1" "billing" (Some declared)]);
      ("db", [mkNode "db-1" "db" None]);
      ("cache", [mkNode "cache-1" "cache" None]) ]
    []
    (Value []).

(** An empty registry whose only check passes: nothing to report, and
    the sentinel appears. *)
Definition idle : Backend :=
  registry [] [ ("c1", mkCheck "ping" "passing" "PONG" "x-1") ] Throws.

(** A mesh with the single intention a -> b, action 'allow'. *)
Definition allowAB : Intention.t :=
  {| Intention.SourceName := "a";
     Intention.DestinationName := "b";
     Intention.Action := "allow" |}.

Definition meshed : Backend := registry [] [] (Value [allowAB]).

(** Two services, "api" and "auth-service"; the intentions query
    fails. *)
Definition gateway : Backend :=
  registry
    [ ("api", [mkNode "api-1" "api" None]);
      ("auth-service", [mkNode "auth-1" "auth-service" None]) ]
    []
    Throws.

Definition api : ConsulService := serviceOfNode gateway (mkNode "api-1" "api" None).

Definition auth : ConsulService :=
  serviceOfNode gateway (mkNode "auth-1" "auth-service" None).

(** The service records of the registries above. *)
Definition orderService : ConsulService :=
  serviceOfNode orders (mkNode "order-1" "order-service" (Some declared)).

Definition billingService : ConsulService :=
  serviceOfNode billing (mkNode "billing-1" "billing" (Some declared)).

Definition dbService : ConsulService := serviceOfNode billing (mkNode "db-1" "db" None).

Definition cacheService : ConsulService :=
  serviceOfNode billing (mkNode "cache-1" "cache" None).

(** Three workers and the agent's own catalog entry; each worker is
    denied access to "consul" by an intention. *)
Definition denyConsul (source' : string) : Intention.t :=
  {| Intention.SourceName := source';
     Intention.DestinationName := "consul";
     Intention.Action := "deny" |}.

Definition guarded : Backend :=
  registry
    [ ("consul", [mkNode "consul" "consul" None]);
      ("w1", [mkNode "w1-1" "w1" None]);
      ("w2", [mkNode "w2-1" "w2" None]);
      ("w3", [mkNode "w3-1" "w3" None]) ]
    []
    (Value [denyConsul "w1"; denyConsul "w2"; denyConsul "w3"]).

(** The quiet registry with a catalog whose node query for "db" is
    rejected. *)
Definition flaky : Backend :=
  {| catalog_service_list := catalog_service_list quiet;
     catalog_service_nodes := fun serviceName =>
       if String.eqb serviceName "db" then Throws
       else catalog_service_nodes quiet serviceName;
     agent_check_list := agent_check_list quiet;
     connect_intentions_list := connect_intentions_list quiet |}.

(** The quiet registry with a check listing that is rejected. *)
Definition blind : Backend :=
  {| catalog_service_list := catalog_service_list quiet;
     catalog_service_nodes := catalog_service_nodes quiet;
     agent_check_list := Throws;
     connect_intentions_list := connect_intentions_list quiet |}.

(** The connection inferred between the two services of the gateway
    registry, and the connection of the first intention of the guarded
    registry, as returned on the sample platform. *)
Definition apiToAuth : ServiceConnection :=
  @enhanceConnectionWithMetrics platform (inferredConnection api auth "http").


End Registries.

(** * Properties *)

(** ** Diagram identifiers *)

Module DiagramFacts.
Import DiagramGenerator.

Lemma formatId_cons (c : ascii) (s : string) :
  formatId (String c s) = String (if isAlnum c then c else "_"%char) (formatId s).
Proof.
  unfold formatId. simpl. destruct (isAlnum c); reflexivity.
Qed.

Lemma formatId_length (s : string) :
  String.length (formatId s) = String.length s.
Proof.
  induction s as [|c s IH]; [reflexivity|].
  rewrite formatId_cons. simpl. now rewrite IH.
Qed.

Lemma formatId_get (s : string) (i : nat) :
  String.get i (formatId s)
  = option_map (fun c => if isAlnum c then c else "_"%char) (String.get i s).
Proof.
  revert i. induction s as [|c s IH]; intros i; [reflexivity|].
  rewrite formatId_cons. destruct i as [|i]; simpl; [reflexivity|apply IH].
Qed.

(** C9. The node identifier [formatId name] has the length of [name];
    at every position it carries the character of [name] when that
    character is in [A-Za-z0-9] and an underscore otherwise; the
    identifier of "order-service!" is "order_service_", and this is the
    identifier that opens the node line of the diagram. *)
Theorem formatId_sanitizes :
  (forall name' : string,
      String.length (formatId name') = String.length name'
      /\ forall i : nat,
          String.get i (formatId name')
          = option_map (fun c => if isAlnum c then c else "_"%char)
                       (String.get i name'))
  /\ formatId "order-service!" = "order_service_"
  /\ (forall (P : Platform) (options : DiagramOptions) (service' : ConsulService),
        String.prefix ("    " +:+ formatId (name service') +:+ "[")
                      (nodeLine options service') = true).
Proof.
  split; [|split].
  - intros name'. split; [apply formatId_length|apply formatId_get].
  - reflexivity.
  - intros P options service'. unfold nodeLine.
    destruct (includeHealth options); simpl.
    + generalize (formatId (name service')) as fid.
      induction fid as [|c fid IH]; simpl.
      * reflexivity.
      * destruct (Ascii.ascii_dec c c); [exact IH|congruence].
    + generalize (formatId (name service')) as fid.
      induction fid as [|c fid IH]; simpl.
      * reflexivity.
      * destruct (Ascii.ascii_dec c c); [exact IH|congruence].
Qed.

(** An identifier made of alphanumeric characters only is the identifier
    of no other name. *)
Lemma formatId_alnum (name' identifier : string) :
  forallb isAlnum (list_ascii_of_string identifier) = true ->
  formatId name' = identifier -> name' = identifier.
Proof.
  revert identifier. induction name' as [|c s IH]; intros [|d t] Hal Heq;
    [reflexivity|discriminate Heq| |];
    rewrite formatId_cons in Heq; [discriminate Heq|].
  injection Heq as Hc Hs.
  cbn [list_ascii_of_string forallb] in Hal. apply andb_true_iff in Hal.
  destruct Hal as [Hd Ht]. f_equal; [|now apply IH].
  destruct (isAlnum c); [exact Hc|]. subst d. discriminate.
Qed.

End DiagramFacts.

(** ** Health rollup *)

Module HealthFacts.
Import Notions.

Lemma has_In (st : string) (statuses : list string) :
  has st statuses = true <-> In st statuses.
Proof.
  unfold has. rewrite existsb_exists. split.
  - intros [x [Hin Heq]]. apply String.eqb_eq in Heq. now subst.
  - intros Hin. exists st. split; [assumption|apply String.eqb_refl].
Qed.

Lemma Precedence_of_has (statuses : list string) :
  Precedence statuses
    (if has "critical" statuses then "critical"
     else if has "warning" statuses then "warning" else "passing").
Proof.
  unfold Precedence.
  destruct (has "critical" statuses) eqn:Hc; destruct (has "warning" statuses) eqn:Hw;
    repeat split; intros; try reflexivity;
    repeat match goal with
           | H : has _ _ = true |- _ => apply has_In in H
           | H : In ?st ?l, E : has ?st ?l = false |- _ =>
               apply has_In in H; congruence
           end; try contradiction.
Qed.

(** The loop of [getServiceHealth] only looks at the attached checks. *)
Lemma healthStep_fold (serviceId : string) (checks : list (string * Check.t)) :
  forall (acc : list HealthCheck) (st : string),
    snd (fold_left (healthStep serviceId) checks (acc, st))
    = fold_left stepStatus (statuses (attached serviceId checks)) st
    /\ map check_status (fst (fold_left (healthStep serviceId) checks (acc, st)))
       = map check_status acc ++ statuses (attached serviceId checks).
Proof.
  induction checks as [|[checkId check] checks IH]; intros acc st.
  - simpl. split; [reflexivity|now rewrite app_nil_r].
  - assert (Hatt : attached serviceId ((checkId, check) :: checks)
                   = if String.eqb (Check.ServiceID check) serviceId
                     then (checkId, check) :: attached serviceId checks
                     else attached serviceId checks) by reflexivity.
    rewrite Hatt. cbn [fold_left]. unfold healthStep at 2 4.
    destruct (String.eqb (Check.ServiceID check) serviceId).
    + match goal with
      | |- context [fold_left _ checks (?acc', ?st')] =>
          destruct (IH acc' st') as [IH1 IH2]
      end.
      split.
      * rewrite IH1. reflexivity.
      * rewrite IH2, map_app. cbn [map check_status statuses snd].
        now rewrite <- app_assoc.
    + apply IH.
Qed.

(** Closed form of the status loop from any intermediate status. *)
Lemma stepStatus_fold (l : list string) :
  forall st : string,
    fold_left stepStatus l st
    = (if has "critical" l then "critical"
       else if String.eqb st "critical" then "critical"
       else if has "warning" l then "warning"
       else st).
Proof.
  unfold has.
  induction l as [|s l IH]; intros st.
  - simpl. destruct (String.eqb_spec st "critical"); congruence.
  - cbn [fold_left existsb]. rewrite IH. unfold stepStatus.
    rewrite (String.eqb_sym "critical" s), (String.eqb_sym "warning" s).
    destruct (String.eqb_spec s "critical") as [Hc|Hc].
    + cbn. destruct (existsb _ l); reflexivity.
    + destruct (String.eqb_spec s "warning") as [Hw|Hw];
        destruct (String.eqb_spec st "critical") as [Hs|Hs]; cbn;
        repeat (destruct (existsb _ l)); try reflexivity;
        destruct (String.eqb_spec st "critical"); congruence.
Qed.

Lemma countStatus_has (st : string) (checks : list HealthCheck) :
  (0 <? HealthManager.countStatus st checks)%nat = has st (map check_status checks).
Proof.
  unfold HealthManager.countStatus, has.
  induction checks as [|c checks IH]; [reflexivity|].
  cbn [List.filter map existsb]. rewrite (String.eqb_sym st).
  destruct (String.eqb (check_status c) st); [reflexivity|exact IH].
Qed.

(** C1. When the check listing answers, the health of a service
    carries exactly the statuses of the checks attached to it, its
    rolled-up status follows the precedence critical, warning, passing
    over those statuses (so a status such as 'unknown' never changes
    it), and the overall status of the health summary follows the same
    precedence over all listed checks. *)
Theorem rollup_precedence (b : Backend) (checks : list (string * Check.t))
    (serviceId : string) :
  agent_check_list b = Value checks ->
  map check_status (health_checks (getServiceHealth b serviceId))
  = statuses (attached serviceId checks)
  /\ Precedence (statuses (attached serviceId checks))
                (health_status (getServiceHealth b serviceId))
  /\ Precedence (statuses checks)
                (HealthManager.overallStatus (HealthManager.getHealthSummary b)).
Proof.
  intros Hlist. unfold getServiceHealth, HealthManager.getHealthSummary, getAllHealthChecks.
  rewrite Hlist.
  destruct (healthStep_fold serviceId checks [] "passing") as [Hst Hcs].
  destruct (fold_left (healthStep serviceId) checks ([], "passing")) as [cs st].
  cbn [snd fst health_status health_checks] in *.
  split; [exact Hcs|]. split.
  - rewrite Hst, stepStatus_fold. cbn [String.eqb Ascii.eqb Bool.eqb].
    apply Precedence_of_has.
  - unfold HealthManager.summarize. cbn [HealthManager.overallStatus].
    rewrite !countStatus_has. rewrite map_map.
    replace (map (fun x : string * Check.t => check_status _) checks) with (statuses checks).
    + apply Precedence_of_has.
    + unfold statuses. apply map_ext. now intros [k c].
Qed.

End HealthFacts.

(** ** The service list *)

Module CatalogFacts.
Import Notions.

(** Where the records of the service list come from. *)
Lemma collectServices_origin (b : Backend) (serviceNames : list string) :
  forall services s,
    collectServices b serviceNames = Some services ->
    In s services ->
    exists key nodes n,
      In key serviceNames /\ key <> "consul"
      /\ catalog_service_nodes b key = Value nodes
      /\ In n nodes /\ s = serviceOfNode b n.
Proof.
  induction serviceNames as [|key keys IH]; intros services s Hc Hin.
  - injection Hc as <-. destruct Hin.
  - cbn [collectServices] in Hc.
    destruct (String.eqb_spec key "consul") as [Hk|Hk].
    + destruct (IH _ _ Hc Hin) as (k & ns & n & ? & ? & ? & ? & ?).
      exists k, ns, n. repeat split; auto. now right.
    + destruct (catalog_service_nodes b key) as [| |nodes] eqn:Hn; [discriminate| |].
      * destruct (IH _ _ Hc Hin) as (k & ns & n & ? & ? & ? & ? & ?).
        exists k, ns, n. repeat split; auto. now right.
      * destruct (collectServices b keys) as [rest|] eqn:Hr; [|discriminate].
        injection Hc as <-. apply in_app_or in Hin. destruct Hin as [Hin|Hin].
        -- apply in_map_iff in Hin. destruct Hin as (n & <- & Hn').
           exists key, nodes, n. repeat split; auto. now left.
        -- destruct (IH _ _ eq_refl Hin) as (k & ns & n & ? & ? & ? & ? & ?).
           exists k, ns, n. repeat split; auto. now right.
Qed.

Lemma getServices_origin (b : Backend) (s : ConsulService) :
  In s (getServices b) ->
  exists serviceNames key nodes n,
    catalog_service_list b = Value serviceNames
    /\ In key serviceNames /\ key <> "consul"
    /\ catalog_service_nodes b key = Value nodes
    /\ In n nodes /\ s = serviceOfNode b n.
Proof.
  unfold getServices. intros Hin.
  destruct (catalog_service_list b) as [| |serviceNames]; try destruct Hin.
  destruct (collectServices b serviceNames) as [services|] eqn:Hc; [|destruct Hin].
  destruct (collectServices_origin b serviceNames services s Hc Hin)
    as (k & ns & n & ? & ? & ? & ? & ?).
  exists serviceNames, k, ns, n. repeat split; auto.
Qed.

Lemma getServices_not_consul (b : Backend) (s : ConsulService) :
  catalogConsistent b = true -> In s (getServices b) -> name s <> "consul".
Proof.
  intros Hcons Hin.
  destruct (getServices_origin b s Hin) as (keys & k & ns & n & Hl & Hk & Hne & Hn & Hin' & ->).
  unfold catalogConsistent in Hcons. rewrite Hl in Hcons.
  rewrite forallb_forall in Hcons. specialize (Hcons k Hk). rewrite Hn in Hcons.
  rewrite forallb_forall in Hcons. specialize (Hcons n Hin').
  apply String.eqb_eq in Hcons. cbn [serviceOfNode name]. congruence.
Qed.

End CatalogFacts.

(** ** Metric synthesis *)

Module SynthesisFacts.
Import Notions.

(** *** Comparisons of binary64 numbers *)

Lemma SFcompare_antisym (x y : spec_float) :
  SFcompare y x = option_map CompOpp (SFcompare x y).
Proof.
  destruct x as [sx|sx| |sx mx ex], y as [sy|sy| |sy my ey]; cbn;
    try reflexivity;
    try (destruct sx; reflexivity); try (destruct sy; reflexivity);
    try (destruct sx, sy; reflexivity).
  destruct sx, sy; cbn; try reflexivity.
  - rewrite (Z.compare_antisym ex ey).
    destruct (ex ?= ey)%Z; cbn; try reflexivity.
    rewrite CompOpp_involutive. f_equal.
    exact (Pos.compare_cont_antisym my mx Eq).
  - rewrite (Z.compare_antisym ex ey).
    destruct (ex ?= ey)%Z; cbn; try reflexivity.
    f_equal. symmetry. exact (Pos.compare_cont_antisym mx my Eq).
Qed.

Lemma leb_not_gt (e t : float) :
  PrimFloat.leb e t = true -> gt e t = false.
Proof.
  unfold gt. rewrite leb_spec, ltb_spec. unfold SFleb, SFltb.
  rewrite (SFcompare_antisym (Prim2SF e) (Prim2SF t)).
  destruct (SFcompare (Prim2SF e) (Prim2SF t)) as [[| |]|]; cbn; congruence.
Qed.

Lemma eq_zero_not_gt (e : float) :
  PrimFloat.eqb e 0 = true -> gt e 0.05 = false /\ gt e 0 = false.
Proof.
  unfold gt. rewrite FloatAxioms.eqb_spec, !ltb_spec.
  replace (Prim2SF 0%float) with (S754_zero false) by reflexivity.
  unfold SFeqb, SFltb.
  destruct (Prim2SF e) as [s|s| |s m x]; cbn;
    try discriminate; try (destruct s; discriminate).
  intros _. split; reflexivity.
Qed.

Section WithPlatform.
Context `{Platform}.

Lemma ConnectionStatus_eqb_eq (a b : ConnectionStatus) :
  ConnectionStatus_eqb a b = true <-> a = b.
Proof. destruct a, b; cbn; split; congruence. Qed.

Lemma enhance_blocked (c : ServiceConnection) :
  status c = blocked -> enhanceConnectionWithMetrics c = c.
Proof.
  intros Hb. unfold enhanceConnectionWithMetrics. now rewrite Hb.
Qed.

Lemma enhance_status (c : ServiceConnection) :
  status (enhanceConnectionWithMetrics c) = rescored c.
Proof.
  unfold enhanceConnectionWithMetrics, rescored, drawnErrorRate, drawn, seededRandom.
  cbn [fst snd].
  destruct (ConnectionStatus_eqb (status c) blocked) eqn:Hb.
  - now apply ConnectionStatus_eqb_eq in Hb.
  - repeat match goal with
           | |- context [if ?g then _ else _] => destruct g
           end; reflexivity.
Qed.

Lemma enhance_endpoints (c : ServiceConnection) :
  source (enhanceConnectionWithMetrics c) = source c
  /\ destination (enhanceConnectionWithMetrics c) = destination c
  /\ protocol (enhanceConnectionWithMetrics c) = protocol c
  /\ usesServiceMesh (enhanceConnectionWithMetrics c) = usesServiceMesh c
  /\ intentionAction (enhanceConnectionWithMetrics c) = intentionAction c.
Proof.
  unfold enhanceConnectionWithMetrics, seededRandom.
  destruct (ConnectionStatus_eqb (status c) blocked).
  - repeat split.
  - repeat match goal with
           | |- context [if ?g then _ else _] => destruct g
           end; repeat split.
Qed.

Lemma enhance_metrics (c : ServiceConnection) :
  status c <> blocked ->
  latency (enhanceConnectionWithMetrics c) = Some (fst (fst (drawn (source c) (destination c))))
  /\ errorRate (enhanceConnectionWithMetrics c) = Some (drawnErrorRate c)
  /\ requestVolume (enhanceConnectionWithMetrics c)
     = Some (snd (drawn (source c) (destination c))).
Proof.
  intros Hb.
  unfold enhanceConnectionWithMetrics, drawnErrorRate, drawn, seededRandom.
  destruct (ConnectionStatus_eqb (status c) blocked) eqn:Hb'.
  - now apply ConnectionStatus_eqb_eq in Hb'.
  - repeat match goal with
           | |- context [if ?g then _ else _] => destruct g
           end; repeat split.
Qed.

End WithPlatform.

Section Claims.
Context `{Platform}.

(** C2. A connection whose status is 'blocked' is returned as it is.
    Any other connection receives the drawn error rate and, from it,
    its status: 'degraded' when the rate exceeds 0.05, 'warning' when
    it is positive and at most 0.05, and 'healthy' when it is zero and
    the original status was 'inferred'. *)
Theorem synthesis_escalation (c : ServiceConnection) :
  (status c = blocked -> enhanceConnectionWithMetrics c = c)
  /\ (status c <> blocked ->
      errorRate (enhanceConnectionWithMetrics c) = Some (drawnErrorRate c)
      /\ (gt (drawnErrorRate c) 0.05 = true ->
          status (enhanceConnectionWithMetrics c) = degraded)
      /\ (gt (drawnErrorRate c) 0 = true ->
          PrimFloat.leb (drawnErrorRate c) 0.05 = true ->
          status (enhanceConnectionWithMetrics c) = warning)
      /\ (PrimFloat.eqb (drawnErrorRate c) 0 = true ->
          status c = inferred ->
          status (enhanceConnectionWithMetrics c) = healthy)).
Proof.
  split; [apply enhance_blocked|].
  intros Hb.
  assert (Hb' : ConnectionStatus_eqb (status c) blocked = false).
  { destruct (ConnectionStatus_eqb (status c) blocked) eqn:E; [|reflexivity].
    now apply ConnectionStatus_eqb_eq in E. }
  split; [apply (enhance_metrics c Hb)|].
  rewrite enhance_status. unfold rescored. rewrite Hb'.
  split; [|split].
  - intros ->. reflexivity.
  - intros Hpos Hle. rewrite (leb_not_gt _ _ Hle), Hpos. reflexivity.
  - intros Hz Hi. destruct (eq_zero_not_gt _ Hz) as [-> ->].
    now rewrite Hi.
Qed.

(** C6. The synthesized latency, error rate and request volume of a
    connection that is not blocked are determined by its source and
    destination alone: two connections with the same pair of
    endpoints receive identical values, whatever their other fields.
    The per-service metrics are determined by the service name, and
    their numeric values by the hash of the name. *)
Theorem synthesis_deterministic :
  (forall c1 c2 : ServiceConnection,
      source c1 = source c2 -> destination c1 = destination c2 ->
      status c1 <> blocked -> status c2 <> blocked ->
      latency (enhanceConnectionWithMetrics c1) = latency (enhanceConnectionWithMetrics c2)
      /\ errorRate (enhanceConnectionWithMetrics c1)
         = errorRate (enhanceConnectionWithMetrics c2)
      /\ requestVolume (enhanceConnectionWithMetrics c1)
         = requestVolume (enhanceConnectionWithMetrics c2))
  /\ (forall c1 c2 : ServiceConnection,
      c1 = c2 -> enhanceConnectionWithMetrics c1 = enhanceConnectionWithMetrics c2)
  /\ (forall n1 n2 : string,
      n1 = n2 ->
      ServiceManager.getServiceMetrics n1 = ServiceManager.getServiceMetrics n2)
  /\ (forall n1 n2 : string,
      hashString n1 = hashString n2 ->
      numbers (ServiceManager.getServiceMetrics n1)
      = numbers (ServiceManager.getServiceMetrics n2)).
Proof.
  split; [|split; [|split]].
  - intros c1 c2 Hs Hd H1 H2.
    destruct (enhance_metrics c1 H1) as (-> & -> & ->).
    destruct (enhance_metrics c2 H2) as (-> & -> & ->).
    unfold drawnErrorRate. rewrite Hs, Hd. repeat split.
  - intros c1 c2 ->. reflexivity.
  - intros n1 n2 ->. reflexivity.
  - intros n1 n2 Hh. unfold ServiceManager.getServiceMetrics. rewrite Hh.
    reflexivity.
Qed.

End Claims.

(** The branches of the escalation on the sample platform: the pair
    (api, auth-service) draws 0.0815 and degrades, the pair (a, b)
    draws 0.0036 and warns, a blocked connection is untouched. *)
Example escalation_degraded :
  gt (@drawnErrorRate Sample.platform (edge "api" "auth-service" inferred)) 0.05 = true
  /\ @enhanceConnectionWithMetrics Sample.platform (edge "api" "auth-service" inferred)
     = {| source := "api"; destination := "auth-service"; status := degraded;
          protocol := "http"; usesServiceMesh := false; intentionAction := None;
          latency := Some 415%float;
          errorRate := Some 0.081469971585283935%float;
          requestVolume := Some 731%float;
          errorMessage := Some "Too many requests" |}.
Proof. split; vm_compute; reflexivity. Qed.

Example escalation_warning :
  map status (map (@enhanceConnectionWithMetrics Sample.platform)
                  [edge "a" "b" inferred; edge "a" "b" allowed; edge "a" "b" blocked])
  = [warning; warning; blocked].
Proof. vm_compute. reflexivity. Qed.

(** On an engine whose generator draws 0 the error rate is zero: an
    inferred connection becomes healthy, any other keeps its status. *)
Example escalation_zero :
  map status (map (@enhanceConnectionWithMetrics Sample.flat)
                  [edge "a" "b" inferred; edge "a" "b" allowed])
  = [healthy; allowed].
Proof. vm_compute. reflexivity. Qed.

End SynthesisFacts.

(** ** Connection inference *)

Module ConnectionFacts.
Import Notions SynthesisFacts.

(** *** The two tiers *)

Lemma collectConnections_intentions (b : Backend) (intentions : list Intention.t) :
  connect_intentions_list b = Value intentions ->
  intentions <> [] ->
  collectConnections b = map connectionOfIntention intentions.
Proof.
  intros Hl Hne. unfold collectConnections, intentionConnections. rewrite Hl.
  destruct intentions as [|i rest]; [congruence|reflexivity].
Qed.

Lemma collectConnections_fallback (b : Backend) :
  intentionConnections b = [] ->
  collectConnections b = flat_map (inferredFrom (getServices b)) (getServices b).
Proof.
  intros He. unfold collectConnections. rewrite He. reflexivity.
Qed.

Lemma inferredFrom_endpoints (services : list ConsulService) (s : ConsulService)
    (c : ServiceConnection) :
  In c (inferredFrom services s) ->
  source c = name s /\ exists t, In t services /\ destination c = name t.
Proof.
  unfold inferredFrom, metadataConnections, namingConnections, namingEdges.
  intros Hin. apply in_app_or in Hin. destruct Hin as [Hin|Hin];
    apply in_flat_map in Hin; destruct Hin as (x & Hx & Hin).
  - apply in_map_iff in Hin. destruct Hin as (t & <- & Ht).
    apply filter_In in Ht. destruct Ht as [Ht _].
    split; [reflexivity|]. now exists t.
  - destruct (String.eqb (id s) (id x)); [destruct Hin|].
    destruct (namingCondition s x); [|destruct Hin].
    destruct Hin as [<-|[]]. split; [reflexivity|]. now exists x.
Qed.

(** *** The condition of the naming heuristic against the rule table *)

Lemma namingCondition_rules (s t : ConsulService) :
  namingCondition s t = (0 <? length (matchingRules s t))%nat.
Proof.
  unfold namingCondition, matchingRules, rules, ruleMatches.
  cbn [List.filter fst snd].
  repeat match goal with
         | |- context [includes ?a ?b] =>
             let v := fresh "v" in
             generalize (includes a b) as v; intros v
         end.
  repeat match goal with
         | v : bool |- _ => destruct v
         end; reflexivity.
Qed.

Section Claims.
Context `{Platform}.

(** C3 (amended). When the intentions query answers at least one
    intention, the result is exactly the intention-derived
    connections, each passed through metric synthesis, and the
    fallback contributes nothing: every element keeps the endpoints
    of its intention, protocol 'tcp' and usesServiceMesh = true; an
    intention whose action is not 'allow' yields the untouched
    'blocked' connection; an 'allow' intention yields 'allowed' only
    when the drawn error rate is not positive, and 'warning' or
    'degraded' otherwise. When the intentions query fails the
    fallback runs and the call still returns its list. *)
Theorem listConnections_two_tier (b : Backend) :
  (forall intentions : list Intention.t,
      connect_intentions_list b = Value intentions ->
      intentions <> [] ->
      getServiceConnections b
      = map (fun i => enhanceConnectionWithMetrics (connectionOfIntention i)) intentions
      /\ forall i : Intention.t,
          In i intentions ->
          source (enhanceConnectionWithMetrics (connectionOfIntention i))
          = Intention.SourceName i
          /\ destination (enhanceConnectionWithMetrics (connectionOfIntention i))
             = Intention.DestinationName i
          /\ protocol (enhanceConnectionWithMetrics (connectionOfIntention i)) = "tcp"
          /\ usesServiceMesh (enhanceConnectionWithMetrics (connectionOfIntention i)) = true
          /\ (Intention.Action i <> "allow" ->
              enhanceConnectionWithMetrics (connectionOfIntention i)
              = connectionOfIntention i
              /\ status (connectionOfIntention i) = blocked)
          /\ (Intention.Action i = "allow" ->
              status (enhanceConnectionWithMetrics (connectionOfIntention i))
              = (if gt (drawnErrorRate (connectionOfIntention i)) 0.05 then degraded
                 else if gt (drawnErrorRate (connectionOfIntention i)) 0 then warning
                 else allowed)))
  /\ (connect_intentions_list b = Throws ->
      getServiceConnections b
      = map enhanceConnectionWithMetrics
            (flat_map (inferredFrom (getServices b)) (getServices b))).
Proof.
  split.
  - intros intentions Hl Hne. split.
    + unfold getServiceConnections.
      rewrite (collectConnections_intentions b intentions Hl Hne).
      apply map_map.
    + intros i _.
      destruct (enhance_endpoints (connectionOfIntention i)) as (-> & -> & -> & -> & _).
      repeat split.
      * apply enhance_blocked. cbn [connectionOfIntention status].
        destruct (String.eqb_spec (Intention.Action i) "allow"); [contradiction|reflexivity].
      * cbn [connectionOfIntention status].
        destruct (String.eqb_spec (Intention.Action i) "allow"); [contradiction|reflexivity].
      * intros Ha. rewrite enhance_status. unfold rescored.
        cbn [connectionOfIntention status]. rewrite Ha. reflexivity.
  - intros Hl. unfold getServiceConnections.
    rewrite collectConnections_fallback; [reflexivity|].
    unfold intentionConnections. now rewrite Hl.
Qed.

(** C4 (amended). In the naming heuristic an ordered pair of
    services with different ids contributes exactly one inferred
    'http' edge when at least one of the six containment rules
    matches the pair, however many rules match, and no edge when none
    matches; a pair with equal ids contributes nothing. *)
Theorem naming_one_edge_per_pair (s t : ConsulService) :
  (id s <> id t ->
   namingEdges s t
   = if (0 <? length (matchingRules s t))%nat
     then [inferredConnection s t "http"] else [])
  /\ (id s = id t -> namingEdges s t = [])
  /\ (length (namingEdges s t) <= 1)%nat
  /\ forall services : list ConsulService,
      namingConnections services s = flat_map (namingEdges s) services.
Proof.
  unfold namingEdges. rewrite namingCondition_rules.
  repeat split.
  - intros Hne. destruct (String.eqb_spec (id s) (id t)); [contradiction|reflexivity].
  - intros ->. now rewrite String.eqb_refl.
  - destruct (String.eqb (id s) (id t)); [cbn; lia|].
    destruct (0 <? length (matchingRules s t))%nat; cbn; lia.
Qed.

End Claims.

End ConnectionFacts.

(** ** Declared upstream services *)

Module UpstreamFacts.
Import Notions.

Section Claims.
Context `{Platform}.

(** C5 (amended). With no intention-derived connection, for a
    service S whose metadata declares upstream_services = "db,cache"
    and a service list holding exactly one service named "db" and
    exactly one named "cache", the metadata step contributes exactly
    two connections from S, to "db" and to "cache" in that order,
    created with status 'inferred' and the declared protocol (default
    'http'); the result of listConnections holds them, after metric
    synthesis, followed by whatever the naming heuristic adds for S;
    when the naming heuristic adds nothing for S these two are the
    only connections S contributes. *)
Theorem declared_upstreams (b : Backend) (before after : list ConsulService)
    (S db cache : ConsulService) :
  intentionConnections b = [] ->
  getServices b = before ++ S :: after ->
  meta S !! "upstream_services" = Some "db,cache" ->
  List.filter (named "db") (getServices b) = [db] ->
  List.filter (named "cache") (getServices b) = [cache] ->
  metadataConnections (getServices b) S
  = [ inferredConnection S db (declaredProtocol S);
      inferredConnection S cache (declaredProtocol S) ]
  /\ getServiceConnections b
     = map enhanceConnectionWithMetrics
         (flat_map (inferredFrom (getServices b)) before
          ++ [ inferredConnection S db (declaredProtocol S);
               inferredConnection S cache (declaredProtocol S) ]
          ++ namingConnections (getServices b) S
          ++ flat_map (inferredFrom (getServices b)) after)
  /\ (namingConnections (getServices b) S = [] ->
      inferredFrom (getServices b) S
      = [ inferredConnection S db (declaredProtocol S);
          inferredConnection S cache (declaredProtocol S) ]).
Proof.
  intros Hint Hsplit Hmeta Hdb Hcache.
  assert (Hm : metadataConnections (getServices b) S
               = [ inferredConnection S db (declaredProtocol S);
                   inferredConnection S cache (declaredProtocol S) ]).
  { unfold metadataConnections, upstreams. rewrite Hmeta.
    change (split "," "db,cache") with ["db"; "cache"].
    cbn [flat_map].
    change (trim "db") with "db". change (trim "cache") with "cache".
    fold (named "db"). fold (named "cache").
    rewrite Hdb, Hcache. reflexivity. }
  split; [exact Hm|]. split.
  - unfold getServiceConnections.
    rewrite (ConnectionFacts.collectConnections_fallback b Hint).
    rewrite Hsplit at 2. rewrite flat_map_app. cbn [flat_map].
    unfold inferredFrom at 2. rewrite Hm.
    now rewrite <- !app_assoc.
  - intros Hn. unfold inferredFrom. rewrite Hm, Hn. reflexivity.
Qed.

End Claims.

End UpstreamFacts.

(** ** Service and mesh analysis *)

Module AnalysisFacts.
Import Notions ServiceAnalyzer CatalogFacts.

Lemma find_none_iff {A : Type} (p : A -> bool) (l : list A) :
  find p l = None <-> forall x, In x l -> p x = false.
Proof.
  induction l as [|a l IH]; cbn.
  - split; [intros _ x []|reflexivity].
  - destruct (p a) eqn:Hp; split.
    + discriminate.
    + intros Hall. specialize (Hall a (or_introl eq_refl)). congruence.
    + intros Hn x [<-|Hx]; [assumption|now apply IH].
    + intros Hall. apply IH. intros x Hx. apply Hall. now right.
Qed.

(** *** The connectivity map over no connection *)

Lemma mapSet_allEmpty (m : list (string * list string)) (k : string) :
  allEmpty m ->
  allEmpty (mapSet m k [])
  /\ In k (map fst (mapSet m k []))
  /\ incl (map fst m) (map fst (mapSet m k [])).
Proof.
  unfold allEmpty. induction m as [|[k' v] m IH]; intros Hall; cbn.
  - repeat split; [repeat constructor|now left|intros x []].
  - inversion Hall as [|? ? Hv Hm]; subst. cbn in Hv. subst v.
    destruct (String.eqb_spec k k') as [->|Hk]; cbn.
    + repeat split; [now constructor|now left|apply incl_refl].
    + destruct (IH Hm) as (IH1 & IH2 & IH3).
      repeat split; [now constructor|now right|].
      intros x [<-|Hx]; [now left|right; now apply IH3].
Qed.

Lemma connectivityMap_nil (services : list ConsulService) :
  allEmpty (connectivityMap services [])
  /\ forall s, In s services -> In (name s) (map fst (connectivityMap services [])).
Proof.
  unfold connectivityMap. cbn [fold_left].
  assert (Hgen : forall m : list (string * list string),
             allEmpty m ->
             allEmpty (fold_left (fun m service' => mapSet m (name service') []) services m)
             /\ incl (map fst m)
                     (map fst (fold_left (fun m service' => mapSet m (name service') [])
                                         services m))
             /\ forall s, In s services ->
                  In (name s)
                     (map fst (fold_left (fun m service' => mapSet m (name service') [])
                                         services m))).
  { induction services as [|s0 services IH]; intros m Hm; cbn [fold_left].
    - repeat split; [assumption|apply incl_refl|intros s []].
    - destruct (mapSet_allEmpty m (name s0) Hm) as (H1 & H2 & H3).
      destruct (IH _ H1) as (I1 & I2 & I3).
      repeat split; [assumption|eapply incl_tran; eassumption|].
      intros s [<-|Hs]; [now apply I2|now apply I3]. }
  destruct (Hgen [] ltac:(constructor)) as (G1 & _ & G3). split; assumption.
Qed.

Lemma isolated_scan (sets : list (list string)) (m : list (string * list string)) :
  (forall n, existsb (fun outgoing' => setHas outgoing' n) sets = false) ->
  allEmpty m ->
  flat_map
    (fun entry : string * list string =>
       let '(serviceName', connections) := entry in
       let hasIncoming := (0 <? length connections)%nat in
       let hasOutgoing := existsb (fun outgoing' => setHas outgoing' serviceName') sets in
       if negb hasIncoming && negb hasOutgoing then [serviceName'] else [])
    m
  = map fst m.
Proof.
  intros Hsets Hm. induction Hm as [|[k v] m Hv Hm IH]; [reflexivity|].
  cbn in Hv. subst v. cbn [flat_map map fst]. rewrite Hsets.
  cbn [length Nat.ltb Nat.leb negb andb app]. f_equal. exact IH.
Qed.

Lemma isolated_allEmpty (m : list (string * list string)) :
  allEmpty m -> isolatedServices m = map fst m.
Proof.
  intros Hm. unfold isolatedServices. apply isolated_scan; [|assumption].
  intros n. induction Hm as [|[k v] m Hv Hm IH]; [reflexivity|].
  cbn in Hv. subst v. cbn. exact IH.
Qed.

Lemma mapGet_allEmpty (m : list (string * list string)) (n : string) :
  allEmpty m -> In n (map fst m) -> mapGet m n = Some [].
Proof.
  intros Hm. induction Hm as [|[k v] m Hv Hm IH]; intros Hin; [destruct Hin|].
  cbn in Hv. subst v. cbn [mapGet]. cbn [map fst] in Hin.
  destruct (String.eqb_spec n k) as [->|Hne]; [reflexivity|].
  destruct Hin as [->|Hin]; [congruence|now apply IH].
Qed.

(** *** The keys of the connectivity map are names of known services *)

Lemma mapSet_keys {V : Type} (m : list (string * V)) (k : string) (v : V) (n : string) :
  In n (map fst (mapSet m k v)) -> n = k \/ In n (map fst m).
Proof.
  induction m as [|[k' v'] m IH]; cbn.
  - intros [<-|[]]. now left.
  - destruct (String.eqb_spec k k') as [->|Hk]; cbn.
    + intros [<-|Hin]; [now left|right; now right].
    + intros [<-|Hin]; [right; now left|].
      destruct (IH Hin) as [->|Hin']; [now left|right; now right].
Qed.

Lemma mapGet_key {V : Type} (m : list (string * V)) (k : string) (v : V) :
  mapGet m k = Some v -> In k (map fst m).
Proof.
  induction m as [|[k' v'] m IH]; cbn; [discriminate|].
  destruct (String.eqb_spec k k') as [->|Hk]; [now left|].
  intros Hg. right. now apply IH.
Qed.

Lemma connectivityMap_keys (services : list ConsulService)
    (connections : list ServiceConnection) :
  (forall s, In s services -> name s <> "consul") ->
  ~ In "consul" (map fst (connectivityMap services connections)).
Proof.
  intros Hnames. unfold connectivityMap.
  set (initial := fold_left (fun m service' => mapSet m (name service') []) services []).
  assert (Hinit : ~ In "consul" (map fst initial)).
  { subst initial.
    assert (Hgen : forall m : list (string * list string),
               ~ In "consul" (map fst m) ->
               ~ In "consul"
                   (map fst (fold_left (fun m service' => mapSet m (name service') [])
                                       services m))).
    { induction services as [|s0 services IH]; intros m Hm; [exact Hm|].
      cbn [fold_left]. apply IH.
      - intros s Hs. apply Hnames. now right.
      - intros Hin. apply mapSet_keys in Hin. destruct Hin as [Heq|Hin]; [|auto].
        apply (Hnames s0 (or_introl eq_refl)). now symmetry. }
    apply Hgen. intros []. }
  revert Hinit. generalize initial. clear initial.
  induction connections as [|conn connections IH]; intros m Hm; [exact Hm|].
  cbn [fold_left]. apply IH.
  destruct (mapGet m (source conn)) as [outgoing'|] eqn:Hg; [|exact Hm].
  intros Hin. apply mapSet_keys in Hin. destruct Hin as [Heq|Hin]; [|auto].
  apply Hm. rewrite Heq. eapply mapGet_key. exact Hg.
Qed.

(** *** Texts that cannot be the sentinel *)

Lemma count_text_not_sentinel (n : nat) (rest : string) (tail : string) :
  natToString n +:+ String " " rest <> String "N" tail.
Proof.
  unfold natToString. destruct (Nat.to_uint n); cbn; intros Heq;
    injection Heq as Hc _; discriminate.
Qed.

Lemma analyzeMesh_nil_issues (services : list ConsulService)
    (hs : HealthManager.HealthSummary) :
  mesh_issues (analyzeMesh services [] hs)
  = (when (0 <? HealthManager.critical hs)%nat
       [natToString (HealthManager.critical hs) +:+ " services have critical health checks"]
     ++ when (0 <? HealthManager.warning hs)%nat
       [natToString (HealthManager.warning hs) +:+ " services have warning health checks"]
     ++ when (0 <? length (isolatedServices (connectivityMap services [])))%nat
       [isolatedText (isolatedServices (connectivityMap services []))])
    ++ when (length
               (when (0 <? HealthManager.critical hs)%nat
                  [natToString (HealthManager.critical hs)
                     +:+ " services have critical health checks"]
                ++ when (0 <? HealthManager.warning hs)%nat
                  [natToString (HealthManager.warning hs)
                     +:+ " services have warning health checks"]
                ++ when (0 <? length (isolatedServices (connectivityMap services [])))%nat
                  [isolatedText (isolatedServices (connectivityMap services []))])
             =? 0)%nat
         ["No issues detected in the service mesh"].
Proof. reflexivity. Qed.

Section Claims.
Context `{Platform}.

(** C7. When no registered service bears the requested name,
    analyzeService rejects with the error "Service <name> not found":
    the caller receives the failure, not an analysis. *)
Theorem analyzeService_not_found (b : Backend) (serviceName' : string) :
  (forall s, In s (getServices b) -> name s <> serviceName') ->
  analyzeService b serviceName'
  = Rejected ("Service " +:+ serviceName' +:+ " not found")
  /\ forall analysis, analyzeService b serviceName' <> Resolved analysis.
Proof.
  intros Hnone.
  assert (Hfind : find (fun s => String.eqb (name s) serviceName') (getServices b) = None).
  { apply find_none_iff. intros s Hs. apply String.eqb_neq. now apply Hnone. }
  unfold analyzeService, ServiceManager.getServiceByName. rewrite Hfind.
  split; [reflexivity|discriminate].
Qed.

(** C8. When the connection list is empty, every known service is
    isolated (its outgoing set is empty and it is in no outgoing
    set) and is listed as such; the issue naming the isolated services
    is reported whenever a service is known; and the sentinel "No
    issues detected in the service mesh" is among the issues only if
    the overall status of the health summary is 'passing'. *)
Theorem mesh_without_connections (b : Backend) :
  getServiceConnections b = [] ->
  (forall s, In s (getServices b) ->
     mapGet (connectivityMap (getServices b) (getServiceConnections b)) (name s) = Some []
     /\ (forall entry,
           In entry (connectivityMap (getServices b) (getServiceConnections b)) ->
           ~ In (name s) (snd entry))
     /\ In (name s)
           (isolatedServices
              (connectivityMap (getServices b) (getServiceConnections b))))
  /\ (getServices b <> [] ->
      In (isolatedText
            (isolatedServices
               (connectivityMap (getServices b) (getServiceConnections b))))
         (mesh_issues (analyzeServiceMesh b)))
  /\ (In "No issues detected in the service mesh" (mesh_issues (analyzeServiceMesh b)) ->
      HealthManager.overallStatus (HealthManager.getHealthSummary b) = "passing").
Proof.
  intros Hnil. unfold analyzeServiceMesh. rewrite Hnil.
  destruct (connectivityMap_nil (getServices b)) as [Hempty Hkeys].
  pose proof (isolated_allEmpty _ Hempty) as Hiso.
  rewrite analyzeMesh_nil_issues, Hiso.
  split; [|split].
  - intros s Hs. specialize (Hkeys s Hs). repeat split.
    + now apply mapGet_allEmpty.
    + intros entry Hentry Hin. unfold allEmpty in Hempty.
      rewrite List.Forall_forall in Hempty. rewrite (Hempty entry Hentry) in Hin.
      destruct Hin.
    + exact Hkeys.
  - intros Hne.
    destruct (getServices b) as [|s0 rest] eqn:Hsv; [congruence|].
    specialize (Hkeys s0 (or_introl eq_refl)).
    destruct (map fst (connectivityMap (s0 :: rest) [])) as [|k ks] eqn:Hm;
      [destruct Hkeys|].
    cbn [length Nat.ltb Nat.leb when].
    apply in_or_app. left. apply in_or_app. right. apply in_or_app. right.
    now left.
  - unfold HealthManager.getHealthSummary, HealthManager.summarize.
    cbn [HealthManager.overallStatus HealthManager.critical HealthManager.warning].
    destruct (0 <? HealthManager.countStatus "critical" (getAllHealthChecks b))%nat;
      destruct (0 <? HealthManager.countStatus "warning" (getAllHealthChecks b))%nat;
      destruct (0 <? length (map fst (connectivityMap (getServices b) [])))%nat;
      cbn [when app length Nat.eqb];
      intros Hin;
      repeat match goal with
             | Hin : In _ (_ :: _) |- _ => destruct Hin as [Hin|Hin]
             | Hin : In _ [] |- _ => destruct Hin
             | Hin : natToString _ +:+ _ = _ |- _ =>
                 exfalso; exact (count_text_not_sentinel _ _ _ Hin)
             | Hin : isolatedText _ = _ |- _ =>
                 exfalso; exact (count_text_not_sentinel _ _ _ Hin)
             end; reflexivity.
Qed.

(** C10. For every registry, every record of the service list is built
    from a node answered for a listed catalog key other than "consul":
    the agent's own catalog entry is always skipped. Hence, for every
    registry whose catalog answers each listed key with nodes of that
    service: no record of the service list is named "consul" and no
    diagram node has the identifier "consul"; the analysis of "consul"
    is rejected as not found; the mesh analysis does not count "consul"
    among the known services; no enriched service record is named
    "consul"; and a returned connection has "consul" as an endpoint
    only when an answered intention names it so (the fallback inference
    never yields one). The name is not kept out of the connections: for
    every registry, each answered intention yields a returned
    connection with the intention's endpoints, whatever they are. *)
Theorem getServices_excludes_consul (b : Backend) :
  (forall s, In s (getServices b) ->
     exists serviceNames key nodes n,
       catalog_service_list b = Value serviceNames
       /\ In key serviceNames /\ key <> "consul"
       /\ catalog_service_nodes b key = Value nodes
       /\ In n nodes /\ s = serviceOfNode b n)
  /\ (catalogConsistent b = true ->
      (forall s, In s (getServices b) ->
         name s <> "consul" /\ DiagramGenerator.formatId (name s) <> "consul")
      /\ (forall c, In c (getServiceConnections b) ->
            source c = "consul" \/ destination c = "consul" ->
            exists intentions intention,
              connect_intentions_list b = Value intentions
              /\ In intention intentions
              /\ Intention.SourceName intention = source c
              /\ Intention.DestinationName intention = destination c)
      /\ analyzeService b "consul" = Rejected "Service consul not found"
      /\ ~ In "consul" (map fst (connectivityMap (getServices b) (getServiceConnections b)))
      /\ (forall details, In details (ServiceManager.getAllServices b) ->
            name (ServiceManager.service details) <> "consul"))
  /\ (forall intentions intention,
        connect_intentions_list b = Value intentions ->
        In intention intentions ->
        exists c, In c (getServiceConnections b)
                  /\ source c = Intention.SourceName intention
                  /\ destination c = Intention.DestinationName intention).
Proof.
  split; [intros s Hs; exact (getServices_origin b s Hs)|]. split.
  - intros Hcons.
    assert (Hnames : forall s, In s (getServices b) -> name s <> "consul")
      by (intros s Hs; exact (getServices_not_consul b s Hcons Hs)).
    split; [|split; [|split; [|split]]].
    + intros s Hs. split; [now apply Hnames|]. intros Hid.
      apply (Hnames s Hs). now apply DiagramFacts.formatId_alnum.
    + intros c Hc Hend. unfold getServiceConnections in Hc.
      apply in_map_iff in Hc. destruct Hc as (c0 & <- & Hc0).
      destruct (SynthesisFacts.enhance_endpoints c0) as (Hsrc & Hdst & _).
      rewrite Hsrc, Hdst in *.
      unfold collectConnections in Hc0.
      destruct (length (intentionConnections b) =? 0)%nat eqn:Hlen.
      * apply Nat.eqb_eq in Hlen. apply length_zero_iff_nil in Hlen.
        rewrite Hlen in Hc0. cbn [app] in Hc0.
        apply in_flat_map in Hc0. destruct Hc0 as (s & Hs & Hc0).
        destruct (ConnectionFacts.inferredFrom_endpoints _ _ _ Hc0) as (Hs' & t & Ht & Ht').
        destruct Hend as [Hend|Hend].
        -- destruct (Hnames s Hs). congruence.
        -- destruct (Hnames t Ht). congruence.
      * unfold intentionConnections in Hc0.
        destruct (connect_intentions_list b) as [| |intentions]; try destruct Hc0.
        apply in_map_iff in Hc0. destruct Hc0 as (intention & <- & Hin).
        exists intentions, intention. repeat split; [exact Hin].
    + assert (Hfind : find (fun s => String.eqb (name s) "consul") (getServices b) = None).
      { apply find_none_iff. intros s Hs. apply String.eqb_neq. now apply Hnames. }
      unfold analyzeService, ServiceManager.getServiceByName. now rewrite Hfind.
    + apply connectivityMap_keys. intros s Hs. now apply Hnames.
    + intros details Hin. unfold ServiceManager.getAllServices in Hin.
      apply in_map_iff in Hin. destruct Hin as (s & <- & Hs).
      cbn [ServiceManager.enrichServiceDetails ServiceManager.service]. now apply Hnames.
  - intros intentions intention Hl Hin.
    assert (Hne : intentions <> []) by (intros ->; destruct Hin).
    exists (enhanceConnectionWithMetrics (connectionOfIntention intention)).
    destruct (SynthesisFacts.enhance_endpoints (connectionOfIntention intention))
      as (Hsrc & Hdst & _).
    split; [|split; [exact Hsrc|exact Hdst]].
    unfold getServiceConnections.
    rewrite (ConnectionFacts.collectConnections_intentions b intentions Hl Hne).
    apply in_map. now apply in_map.
Qed.

End Claims.

End AnalysisFacts.

(** * Further properties of the sources *)

(** ** The string hash *)

Module HashFacts.
Import Notions.

Lemma toInt32_range (z : Z) : - 2 ^ 31 <= toInt32 z < 2 ^ 31.
Proof.
  unfold toInt32. pose proof (Z.mod_pos_bound (z + 2 ^ 31) (2 ^ 32) ltac:(lia)). lia.
Qed.

Lemma toInt32_mod (z : Z) : toInt32 z mod 2 ^ 32 = z mod 2 ^ 32.
Proof.
  unfold toInt32.
  rewrite Zminus_mod, Zmod_mod, <- Zminus_mod.
  f_equal. lia.
Qed.

Lemma toInt32_congr (x y : Z) : x mod 2 ^ 32 = y mod 2 ^ 32 -> toInt32 x = toInt32 y.
Proof.
  intros Hxy. unfold toInt32.
  rewrite (Zplus_mod x), (Zplus_mod y), Hxy. reflexivity.
Qed.

Lemma toInt32_idem (z : Z) : toInt32 (toInt32 z) = toInt32 z.
Proof. apply toInt32_congr, toInt32_mod. Qed.

Lemma toInt32_decomp (z : Z) : exists q : Z, toInt32 z = z + q * 2 ^ 32.
Proof.
  exists (- ((z + 2 ^ 31) / 2 ^ 32)). unfold toInt32.
  pose proof (Z.div_mod (z + 2 ^ 31) (2 ^ 32) ltac:(lia)). lia.
Qed.

Lemma hashStep_closed (z : Z) (c : ascii) :
  hashStep (toInt32 z) c = toInt32 (31 * z + charCode c).
Proof.
  unfold hashStep, band, shl. rewrite Z.land_diag, toInt32_idem, Z.shiftl_mul_pow2 by lia.
  destruct (toInt32_decomp z) as [q1 Hq1].
  destruct (toInt32_decomp (toInt32 z * 2 ^ 5)) as [q2 Hq2].
  apply toInt32_congr. rewrite Hq2, Hq1.
  replace ((z + q1 * 2 ^ 32) * 2 ^ 5 + q2 * 2 ^ 32 - (z + q1 * 2 ^ 32) + charCode c)
    with (31 * z + charCode c + (31 * q1 + q2) * 2 ^ 32) by lia.
  apply Z_mod_plus_full.
Qed.

Lemma hashStep_fold (l : list ascii) :
  forall z : Z,
    fold_left hashStep l (toInt32 z)
    = toInt32 (fold_left (fun h c => 31 * h + charCode c) l z).
Proof.
  induction l as [|c l IH]; intros z; [reflexivity|].
  cbn [fold_left]. rewrite hashStep_closed. apply IH.
Qed.

(** X1. The string hash is the absolute value of the 32-bit wrap of the
    base-31 polynomial of the code units, so it lies between 0 and
    2^31 inclusive: the generator seed is never negative. *)
Theorem hashString_polynomial (str : string) :
  hashString str = Z.abs (toInt32 (poly31 str))
  /\ 0 <= hashString str <= 2 ^ 31.
Proof.
  assert (Hh : hashString str = Z.abs (toInt32 (poly31 str))).
  { unfold hashString, poly31. now rewrite <- hashStep_fold. }
  split; [exact Hh|]. rewrite Hh.
  pose proof (toInt32_range (poly31 str)). lia.
Qed.

End HashFacts.

(** ** Insertion-ordered sets and service dependencies *)

Module SetFacts.
Import Notions.

Lemma setHas_In (s : list string) (x : string) :
  existsb (String.eqb x) s = true <-> In x s.
Proof.
  rewrite existsb_exists. split.
  - intros (y & Hy & Heq). apply String.eqb_eq in Heq. now subst.
  - intros Hin. exists x. split; [assumption|apply String.eqb_refl].
Qed.

Lemma dedup_In (l seen : list string) (x : string) :
  In x (dedup l seen) <-> In x l /\ ~ In x seen.
Proof.
  revert seen. induction l as [|a l IH]; intros seen; cbn [dedup].
  - cbn. tauto.
  - destruct (existsb (String.eqb a) seen) eqn:Hs.
    + apply setHas_In in Hs. rewrite IH. cbn. split.
      * intros [Hl Hn]. tauto.
      * intros [[->|Hl] Hn]; [contradiction|tauto].
    + assert (Hn : ~ In a seen).
      { intros Hin. apply setHas_In in Hin. congruence. }
      cbn [In]. rewrite IH. cbn [In]. split.
      * intros [<-|[Hl Hns]]; [tauto|]. split; [tauto|]. intros Hx. apply Hns. now right.
      * intros [[<-|Hl] Hns]; [now left|].
        destruct (String.eqb_spec a x) as [->|Hne]; [now left|].
        right. split; [assumption|]. intros [E|Hx]; [congruence|contradiction].
Qed.

Lemma dedup_NoDup (l seen : list string) : List.NoDup (dedup l seen).
Proof.
  revert seen. induction l as [|a l IH]; intros seen; cbn [dedup].
  - constructor.
  - destruct (existsb (String.eqb a) seen); [apply IH|].
    constructor; [|apply IH].
    intros Hin. apply dedup_In in Hin. destruct Hin as [_ Hn]. apply Hn. now left.
Qed.

Lemma uniq_In (l : list string) (x : string) : In x (uniq l) <-> In x l.
Proof. unfold uniq. rewrite dedup_In. cbn. tauto. Qed.

Lemma uniq_NoDup (l : list string) : List.NoDup (uniq l).
Proof. apply dedup_NoDup. Qed.

Section WithPlatform.
Context `{Platform}.

(** X11. The dependencies and the dependents of a service hold no name
    twice; they are the destinations of the returned connections leaving
    the service and the sources of those reaching it, and the listed
    connections are those with the service at either end. *)
Theorem dependencies_are_distinct (b : Backend) (serviceName' : string) :
  List.NoDup (ServiceManager.dependencies (ServiceManager.getServiceDependencies b serviceName'))
  /\ List.NoDup (ServiceManager.dependents (ServiceManager.getServiceDependencies b serviceName'))
  /\ (forall d,
        In d (ServiceManager.dependencies (ServiceManager.getServiceDependencies b serviceName'))
        <-> exists c, In c (getServiceConnections b)
                      /\ source c = serviceName' /\ destination c = d)
  /\ (forall d,
        In d (ServiceManager.dependents (ServiceManager.getServiceDependencies b serviceName'))
        <-> exists c, In c (getServiceConnections b)
                      /\ destination c = serviceName' /\ source c = d)
  /\ (forall c,
        In c (ServiceManager.dep_connections
                (ServiceManager.getServiceDependencies b serviceName'))
        <-> In c (getServiceConnections b)
            /\ (source c = serviceName' \/ destination c = serviceName')).
Proof.
  unfold ServiceManager.getServiceDependencies.
  cbn [ServiceManager.dependencies ServiceManager.dependents ServiceManager.dep_connections].
  split; [apply uniq_NoDup|]. split; [apply uniq_NoDup|]. split; [|split].
  - intros d. rewrite uniq_In, in_map_iff. split.
    + intros (c & Hd & Hc). apply filter_In in Hc. destruct Hc as [Hc Hs].
      apply String.eqb_eq in Hs. now exists c.
    + intros (c & Hc & Hs & Hd). exists c. split; [assumption|].
      apply filter_In. split; [assumption|now apply String.eqb_eq].
  - intros d. rewrite uniq_In, in_map_iff. split.
    + intros (c & Hd & Hc). apply filter_In in Hc. destruct Hc as [Hc Hs].
      apply String.eqb_eq in Hs. now exists c.
    + intros (c & Hc & Hs & Hd). exists c. split; [assumption|].
      apply filter_In. split; [assumption|now apply String.eqb_eq].
  - intros c. rewrite filter_In, orb_true_iff, !String.eqb_eq. reflexivity.
Qed.

End WithPlatform.

End SetFacts.

(** ** Catalog and check listings *)

Module RegistryFacts.
Import Notions HealthFacts CatalogFacts.

Lemma collectServices_throws (b : Backend) (serviceNames : list string) (key : string) :
  In key serviceNames -> key <> "consul" ->
  catalog_service_nodes b key = Throws ->
  collectServices b serviceNames = None.
Proof.
  intros Hin Hne Hthrow.
  induction serviceNames as [|k keys IH]; [destruct Hin|].
  cbn [collectServices].
  destruct (String.eqb_spec k "consul") as [Hk|Hk].
  - destruct Hin as [->|Hin]; [contradiction|now apply IH].
  - destruct Hin as [->|Hin].
    + now rewrite Hthrow.
    + destruct (catalog_service_nodes b k); [reflexivity|now apply IH|].
      now rewrite (IH Hin).
Qed.

(** X2. The service list is all or nothing: when the node query of one
    listed catalog key other than "consul" is rejected, getServices
    returns the empty list, whatever the other keys answered. *)
Theorem getServices_all_or_nothing (b : Backend) (serviceNames : list string)
    (key : string) :
  catalog_service_list b = Value serviceNames ->
  In key serviceNames -> key <> "consul" ->
  catalog_service_nodes b key = Throws ->
  getServices b = [].
Proof.
  intros Hl Hin Hne Hthrow. unfold getServices. rewrite Hl.
  now rewrite (collectServices_throws b serviceNames key Hin Hne Hthrow).
Qed.

(** The checks a service record carries are those of [getServiceHealth]. *)
Lemma service_health (b : Backend) (s : ConsulService) :
  In s (getServices b) ->
  health s = getServiceHealth b (id s).
Proof.
  intros Hs. destruct (getServices_origin b s Hs) as (ks & k & ns & n & _ & _ & _ & _ & _ & ->).
  cbn [serviceOfNode health id].
  now destruct (getServiceHealth b (Node.ServiceID n)).
Qed.

(** X3. When the check listing gives no object (it is rejected, or it
    answers something that is not an object), every service record
    carries the health status "unknown" with no checks, the lists of all
    and of failing checks are empty, and the summary counts no check and
    reports the overall status "passing". *)
Theorem check_listing_failure (b : Backend) :
  (forall checks, agent_check_list b <> Value checks) ->
  (forall s, In s (getServices b) ->
     health s = {| health_status := "unknown"; health_checks := [] |})
  /\ getAllHealthChecks b = []
  /\ getFailingHealthChecks b = []
  /\ HealthManager.total (HealthManager.getHealthSummary b) = 0%nat
  /\ HealthManager.overallStatus (HealthManager.getHealthSummary b) = "passing".
Proof.
  intros Hfail.
  assert (Hall : getAllHealthChecks b = []).
  { unfold getAllHealthChecks. destruct (agent_check_list b) as [| |checks] eqn:E;
      [reflexivity|reflexivity|]. now destruct (Hfail checks). }
  split.
  - intros s Hs. rewrite (service_health b s Hs). unfold getServiceHealth.
    destruct (agent_check_list b) as [| |checks] eqn:E; [reflexivity|reflexivity|].
    now destruct (Hfail checks).
  - split; [exact Hall|]. split.
    + unfold getFailingHealthChecks. now rewrite Hall.
    + unfold HealthManager.getHealthSummary. rewrite Hall. split; reflexivity.
Qed.

Lemma summarize_counts (allChecks : list HealthCheck) :
  length allChecks
  = (HealthManager.countStatus "passing" allChecks
     + HealthManager.countStatus "warning" allChecks
     + HealthManager.countStatus "critical" allChecks
     + HealthManager.countStatus "unknown" allChecks
     + length (List.filter otherStatus allChecks))%nat
  /\ length (List.filter isFailingCheck allChecks)
     = (HealthManager.countStatus "warning" allChecks
        + HealthManager.countStatus "critical" allChecks)%nat.
Proof.
  unfold HealthManager.countStatus, otherStatus, isFailingCheck.
  induction allChecks as [|c l [IH1 IH2]]; [split; reflexivity|].
  cbn [List.filter length].
  destruct (String.eqb_spec (check_status c) "passing") as [E|E];
    [rewrite ?E; cbn; split; lia|].
  destruct (String.eqb_spec (check_status c) "warning") as [E1|E1];
    [rewrite ?E1; cbn; split; lia|].
  destruct (String.eqb_spec (check_status c) "critical") as [E2|E2];
    [rewrite ?E2; cbn; split; lia|].
  destruct (String.eqb_spec (check_status c) "unknown") as [E3|E3];
    [rewrite ?E3; cbn; split; lia|].
  cbn. split; lia.
Qed.

(** X4. The summary's total is the sum of its four counters and of the
    number of checks whose status is none of the four names; the failing
    checks are as many as the warning and critical counters together,
    and enriching them keeps their number. *)
Theorem summary_counts (b : Backend) :
  HealthManager.total (HealthManager.getHealthSummary b)
  = (HealthManager.passing (HealthManager.getHealthSummary b)
     + HealthManager.warning (HealthManager.getHealthSummary b)
     + HealthManager.critical (HealthManager.getHealthSummary b)
     + HealthManager.unknown (HealthManager.getHealthSummary b)
     + length (List.filter otherStatus (getAllHealthChecks b)))%nat
  /\ length (getFailingHealthChecks b)
     = (HealthManager.warning (HealthManager.getHealthSummary b)
        + HealthManager.critical (HealthManager.getHealthSummary b))%nat
  /\ length (HealthManager.getFailingHealthChecks b) = length (getFailingHealthChecks b).
Proof.
  destruct (summarize_counts (getAllHealthChecks b)) as [H1 H2].
  split; [exact H1|]. split; [exact H2|].
  unfold HealthManager.getFailingHealthChecks. apply length_map.
Qed.

(** The record built from a listed check by [getServiceHealth]. *)
Lemma healthStep_checks (serviceId : string) (checks : list (string * Check.t)) :
  forall (acc : list HealthCheck) (st : string),
    map checkCore (fst (fold_left (healthStep serviceId) checks (acc, st)))
    = map checkCore acc
      ++ map (fun entry : string * Check.t =>
                (fst entry, Check.Name (snd entry), Check.Status (snd entry),
                 Check.Output (snd entry), Check.Notes (snd entry)))
             (attached serviceId checks).
Proof.
  induction checks as [|[checkId check] checks IH]; intros acc st.
  - cbn. now rewrite app_nil_r.
  - assert (Hatt : attached serviceId ((checkId, check) :: checks)
                   = if String.eqb (Check.ServiceID check) serviceId
                     then (checkId, check) :: attached serviceId checks
                     else attached serviceId checks) by reflexivity.
    rewrite Hatt. cbn [fold_left]. unfold healthStep at 2.
    destruct (String.eqb (Check.ServiceID check) serviceId); [|apply IH].
    rewrite IH, map_app. cbn [map checkCore check_id check_name check_status
                                  check_output check_notes fst snd].
    now rewrite <- app_assoc.
Qed.

(** X5. The checks of a service's health are, in order and with the
    same id, name, status, output and notes, the checks of the full
    listing that are attached to that service id. *)
Theorem service_checks_are_listed (b : Backend) (serviceId : string) :
  map checkCore (health_checks (getServiceHealth b serviceId))
  = map checkCore
        (List.filter
           (fun check =>
              match check_serviceId check with
              | Some sid => String.eqb sid serviceId
              | None => false
              end)
           (getAllHealthChecks b)).
Proof.
  unfold getServiceHealth, getAllHealthChecks.
  destruct (agent_check_list b) as [| |checks]; [reflexivity|reflexivity|].
  pose proof (healthStep_checks serviceId checks [] "passing") as Hc.
  destruct (fold_left (healthStep serviceId) checks ([], "passing")) as [cs st].
  cbn [fst health_checks] in *. rewrite Hc. cbn [map app].
  unfold attached. clear Hc.
  induction checks as [|[checkId check] checks IH]; [reflexivity|].
  cbn [map List.filter check_serviceId snd].
  destruct (String.eqb (Check.ServiceID check) serviceId); cbn [map]; now rewrite IH.
Qed.

(** A service record has a failing check exactly when its rolled-up
    status is critical or warning. *)
Lemma failing_flag_matches_status (b : Backend) (s : ConsulService) :
  In s (getServices b) ->
  existsb isFailingCheck (health_checks (health s)) = true
  <-> (health_status (health s) = "critical" \/ health_status (health s) = "warning").
Proof.
  intros Hs. rewrite (service_health b s Hs). unfold getServiceHealth.
  destruct (agent_check_list b) as [| |checks].
  - cbn. split; [discriminate|intros [H|H]; discriminate].
  - cbn. split; [discriminate|intros [H|H]; discriminate].
  - destruct (healthStep_fold (id s) checks [] "passing") as [Hst Hcs].
    destruct (fold_left (healthStep (id s)) checks ([], "passing")) as [cs st].
    cbn [fst snd health_status health_checks] in *.
    rewrite stepStatus_fold in Hst. cbn [String.eqb Ascii.eqb Bool.eqb] in Hst.
    cbn [map app] in Hcs.
    assert (Hex : existsb isFailingCheck cs
                  = has "warning" (statuses (attached (id s) checks))
                    || has "critical" (statuses (attached (id s) checks))).
    { rewrite <- Hcs. unfold has, isFailingCheck. clear.
      induction cs as [|c cs IH]; [reflexivity|].
      cbn [existsb map]. rewrite IH.
      rewrite (String.eqb_sym "warning"), (String.eqb_sym "critical").
      destruct (String.eqb (check_status c) "warning"),
               (String.eqb (check_status c) "critical"),
               (existsb (String.eqb "warning") (map check_status cs)),
               (existsb (String.eqb "critical") (map check_status cs)); reflexivity. }
    rewrite Hex, Hst.
    destruct (has "critical" (statuses (attached (id s) checks)));
      destruct (has "warning" (statuses (attached (id s) checks))); cbn;
      split; auto; try discriminate; intros [H|H]; discriminate.
Qed.

Lemma find_first {A : Type} (p : A -> bool) (l : list A) (x : A) :
  find p l = Some x ->
  exists l1 l2, l = l1 ++ x :: l2 /\ p x = true /\ forall y, In y l1 -> p y = false.
Proof.
  induction l as [|a l IH]; cbn; [discriminate|].
  destruct (p a) eqn:Hp.
  - intros [= <-]. exists [], l.
    split; [reflexivity|]. split; [assumption|intros y []].
  - intros Hf. destruct (IH Hf) as (l1 & l2 & -> & Hx & Hl1).
    exists (a :: l1), l2.
    split; [reflexivity|]. split; [assumption|].
    intros y [<-|Hy]; [assumption|now apply Hl1].
Qed.

Section WithPlatform.
Context `{Platform}.

(** X6. getServiceByName answers null exactly when no service bears the
    name; otherwise it answers the enrichment of the first service of
    the list with that name. *)
Theorem getServiceByName_first (b : Backend) (serviceName' : string) :
  (ServiceManager.getServiceByName b serviceName' = None
   <-> forall s, In s (getServices b) -> name s <> serviceName')
  /\ (forall details,
        ServiceManager.getServiceByName b serviceName' = Some details ->
        exists s before after,
          getServices b = before ++ s :: after
          /\ name s = serviceName'
          /\ (forall s', In s' before -> name s' <> serviceName')
          /\ details = ServiceManager.enrichServiceDetails s (getServiceConnections b)).
Proof.
  unfold ServiceManager.getServiceByName. split.
  - destruct (find (fun s => String.eqb (name s) serviceName') (getServices b)) as [s|] eqn:Hf.
    + split; [discriminate|]. intros Hnone.
      apply find_some in Hf. destruct Hf as [Hin Heq].
      apply String.eqb_eq in Heq. now destruct (Hnone s Hin).
    + split; [|reflexivity]. intros _ s Hs Heq.
      pose proof (find_none _ _ Hf s Hs) as Hn. cbn in Hn.
      apply String.eqb_neq in Hn. contradiction.
  - intros details.
    destruct (find (fun s => String.eqb (name s) serviceName') (getServices b)) as [s|] eqn:Hf;
      [|discriminate].
    intros [= <-]. destruct (find_first _ _ _ Hf) as (l1 & l2 & Hl & Hx & Hl1).
    exists s, l1, l2.
    split; [assumption|]. split; [now apply String.eqb_eq|]. split; [|reflexivity].
    intros s' Hs'. apply String.eqb_neq. now apply Hl1.
Qed.

(** X7. For every enriched service the flag hasFailingHealthChecks
    holds exactly when the health status is critical or warning, so
    getFailingServices returns the enriched services with that flag. *)
Theorem failing_services (b : Backend) :
  (forall details, In details (ServiceManager.getAllServices b) ->
     ServiceManager.hasFailingHealthChecks details = true
     <-> (ServiceManager.healthStatus details = "critical"
          \/ ServiceManager.healthStatus details = "warning"))
  /\ ServiceManager.getFailingServices b
     = List.filter ServiceManager.hasFailingHealthChecks (ServiceManager.getAllServices b).
Proof.
  split.
  - intros details Hin. unfold ServiceManager.getAllServices in Hin.
    apply in_map_iff in Hin. destruct Hin as (s & <- & Hs).
    cbn [ServiceManager.enrichServiceDetails ServiceManager.hasFailingHealthChecks
         ServiceManager.healthStatus].
    exact (failing_flag_matches_status b s Hs).
  - unfold ServiceManager.getFailingServices, ServiceManager.getAllServices.
    rewrite filter_map_swap. f_equal. apply filter_ext_in. intros s Hs.
    cbn [ServiceManager.enrichServiceDetails ServiceManager.hasFailingHealthChecks].
    pose proof (failing_flag_matches_status b s Hs) as Hiff.
    destruct (existsb isFailingCheck (health_checks (health s))).
    + destruct (proj1 Hiff eq_refl) as [-> | ->]; reflexivity.
    + destruct (String.eqb_spec (health_status (health s)) "critical") as [E|E].
      * symmetry. apply Hiff. now left.
      * destruct (String.eqb_spec (health_status (health s)) "warning") as [E'|E'];
          [|reflexivity].
        symmetry. apply Hiff. now right.
Qed.

End WithPlatform.

End RegistryFacts.

(** ** Ranking of failing checks *)

Module RankingFacts.
Import Notions ServiceAnalyzer.

(** *** The stable descending sort *)







(** *** The counting map *)






End RankingFacts.

(** ** The connection pipeline *)

Module PipelineFacts.
Import Notions SynthesisFacts ConnectionFacts.


Section WithPlatform.
Context `{Platform}.

(** What the two tiers push before the synthesis. *)
Lemma collected_shape (b : Backend) (c0 : ServiceConnection) :
  In c0 (collectConnections b) ->
  latency c0 = None /\ errorRate c0 = None /\ requestVolume c0 = None
  /\ errorMessage c0 = None
  /\ ((status c0 = inferred /\ intentionAction c0 = None /\ intentionConnections b = [])
      \/ ((status c0 = allowed \/ status c0 = blocked)
          /\ intentionAction c0 <> None /\ intentionConnections b <> [])).
Proof.
  unfold collectConnections.
  destruct (intentionConnections b) as [|i0 rest] eqn:Hint; cbn [length Nat.eqb app].
  - intros Hin. apply in_flat_map in Hin. destruct Hin as (s & _ & Hin).
    unfold inferredFrom, metadataConnections, namingConnections, namingEdges in Hin.
    apply in_app_or in Hin. destruct Hin as [Hin|Hin];
      apply in_flat_map in Hin; destruct Hin as (x & _ & Hin).
    + apply in_map_iff in Hin. destruct Hin as (t & <- & _).
      cbn. repeat split; auto.
    + destruct (String.eqb (id s) (id x)); [destruct Hin|].
      destruct (namingCondition s x); [|destruct Hin].
      destruct Hin as [<-|[]]. cbn. repeat split; auto.
  - intros Hin. unfold intentionConnections in Hint.
    destruct (connect_intentions_list b) as [| |intentions]; try discriminate.
    rewrite <- Hint in Hin. apply in_map_iff in Hin. destruct Hin as (i & <- & _).
    cbn. repeat split; auto. right. split; [|split; discriminate].
    destruct (String.eqb (Intention.Action i) "allow"); auto.
Qed.



(** X9. A returned connection never has the status failing or
    inferred; without intentions its status is healthy, warning or
    degraded; and getFailingConnections keeps it exactly when it is
    degraded or blocked. *)
Theorem statuses_produced (b : Backend) (c : ServiceConnection) :
  In c (getServiceConnections b) ->
  status c <> failing
  /\ status c <> inferred
  /\ (intentionConnections b = [] ->
      status c = healthy \/ status c = warning \/ status c = degraded)
  /\ (In c (getFailingConnections b) <-> (status c = degraded \/ status c = blocked)).
Proof.
  intros Hc. pose proof Hc as Hc'. unfold getServiceConnections in Hc'.
  apply in_map_iff in Hc'. destruct Hc' as (c0 & <- & Hc0).
  destruct (collected_shape b c0 Hc0) as (_ & _ & _ & _ & Hshape).
  assert (Hst : status (enhanceConnectionWithMetrics c0) <> failing
                /\ status (enhanceConnectionWithMetrics c0) <> inferred
                /\ (intentionConnections b = [] ->
                    status (enhanceConnectionWithMetrics c0) = healthy
                    \/ status (enhanceConnectionWithMetrics c0) = warning
                    \/ status (enhanceConnectionWithMetrics c0) = degraded)).
  { rewrite enhance_status. unfold rescored.
    destruct Hshape as [(Hs & _ & _)|([Hs|Hs] & _ & Hne)]; rewrite Hs;
      cbn [ConnectionStatus_eqb];
      destruct (gt (drawnErrorRate c0) 0.05); destruct (gt (drawnErrorRate c0) 0);
      repeat split; try discriminate; auto; intros E; contradiction. }
  destruct Hst as (H1 & H2 & H3).
  split; [exact H1|]. split; [exact H2|]. split; [exact H3|].
  unfold getFailingConnections. rewrite filter_In. unfold isFailingConnection.
  destruct (status (enhanceConnectionWithMetrics c0)); cbn;
    split; try tauto; try (intros [_ E]; discriminate);
    try (intros [E|E]; discriminate); try contradiction.
Qed.


End WithPlatform.

End PipelineFacts.

(** ** Isolated services *)

Module TopologyFacts.
Import Notions ServiceAnalyzer SetFacts AnalysisFacts.

Lemma mapGet_none_key {V : Type} (m : list (string * V)) (k : string) :
  mapGet m k = None <-> ~ In k (map fst m).
Proof.
  induction m as [|[k' v'] m IH]; cbn [mapGet map fst].
  - split; [intros _ []|reflexivity].
  - destruct (String.eqb_spec k k') as [->|Hk].
    + split; [discriminate|]. intros Hn. exfalso. apply Hn. now left.
    + rewrite IH. split.
      * intros Hn [E|Hin]; [congruence|contradiction].
      * intros Hn Hin. apply Hn. now right.
Qed.

Lemma mapSet_get {V : Type} (m : list (string * V)) (k k' : string) (v : V) :
  mapGet (mapSet m k v) k' = if String.eqb k' k then Some v else mapGet m k'.
Proof.
  induction m as [|[k0 v0] m IH]; cbn [mapSet mapGet].
  - destruct (String.eqb k' k); reflexivity.
  - destruct (String.eqb_spec k k0) as [Hk|Hk]; cbn [mapGet].
    + subst k0. destruct (String.eqb_spec k' k); reflexivity.
    + rewrite IH.
      destruct (String.eqb_spec k' k0); destruct (String.eqb_spec k' k);
        try reflexivity; congruence.
Qed.

Lemma mapSet_present {V : Type} (m : list (string * V)) (k : string) (v : V) :
  In k (map fst m) -> map fst (mapSet m k v) = map fst m.
Proof.
  induction m as [|[k0 v0] m IH]; cbn [mapSet map fst]; [intros []|].
  destruct (String.eqb_spec k k0) as [->|Hk]; [reflexivity|].
  intros [E|Hin]; [congruence|]. cbn [map fst]. now rewrite IH.
Qed.

Lemma mapSet_absent {V : Type} (m : list (string * V)) (k : string) (v : V) :
  ~ In k (map fst m) -> map fst (mapSet m k v) = map fst m ++ [k].
Proof.
  induction m as [|[k0 v0] m IH]; cbn [mapSet map fst app]; [reflexivity|].
  intros Hn. destruct (String.eqb_spec k k0) as [->|Hk].
  - exfalso. apply Hn. now left.
  - cbn [map fst]. rewrite IH; [reflexivity|]. intros Hin. apply Hn. now right.
Qed.

Lemma mapGet_entry {V : Type} (m : list (string * V)) (k : string) (v : V) :
  List.NoDup (map fst m) -> (In (k, v) m <-> mapGet m k = Some v).
Proof.
  induction m as [|[k0 v0] m IH]; cbn [mapGet map fst]; intros Hnd.
  - split; [intros []|discriminate].
  - inversion Hnd as [|? ? Hnotin Hnd']; subst.
    destruct (String.eqb_spec k k0) as [->|Hk].
    + split.
      * intros [[= <-]|Hin]; [reflexivity|].
        exfalso. apply Hnotin. apply in_map_iff. now exists (k0, v).
      * intros [= <-]. now left.
    + rewrite <- (IH Hnd'). split.
      * intros [[= -> ->]|Hin]; [congruence|assumption].
      * intros Hin. now right.
Qed.

(** The keys of the map before any connection is read: the distinct
    names of the services, every outgoing set empty. *)
Lemma initial_map (services : list ConsulService) :
  forall m : list (string * list string),
    List.NoDup (map fst m) -> allEmpty m ->
    let m' := fold_left (fun m service' => mapSet m (name service') []) services m in
    List.NoDup (map fst m') /\ allEmpty m'
    /\ forall k, In k (map fst m') <-> In k (map fst m) \/ knownName services k.
Proof.
  induction services as [|s services IH]; intros m Hnd Hm; cbn [fold_left].
  - split; [assumption|]. split; [assumption|]. intros k. split; [now left|].
    intros [Hk|(s & [] & _)]. assumption.
  - destruct (mapSet_allEmpty m (name s) Hm) as (Hm1 & Hin1 & Hincl).
    assert (Hnd1 : List.NoDup (map fst (mapSet m (name s) []))).
    { destruct (in_dec string_dec (name s) (map fst m)) as [Hin|Hnin].
      - now rewrite mapSet_present.
      - rewrite mapSet_absent by assumption.
        apply NoDup_app_remove_l with (l := []). cbn.
        apply Permutation_NoDup with (l := name s :: map fst m).
        + apply Permutation_cons_append.
        + now constructor. }
    destruct (IH _ Hnd1 Hm1) as (I1 & I2 & I3).
    split; [assumption|]. split; [assumption|].
    intros k. rewrite I3. split.
    + intros [Hk|(s' & Hs' & Hn)].
      * destruct (in_dec string_dec (name s) (map fst m)) as [Hin|Hnin].
        -- rewrite mapSet_present in Hk by assumption. now left.
        -- rewrite mapSet_absent in Hk by assumption.
           apply in_app_or in Hk. destruct Hk as [Hk|[<-|[]]]; [now left|].
           right. exists s. split; [now left|reflexivity].
      * right. exists s'. split; [now right|assumption].
    + intros [Hk|(s' & [<-|Hs'] & Hn)].
      * left. now apply Hincl.
      * left. now rewrite <- Hn.
      * right. now exists s'.
Qed.

Lemma setAdd_In (s : list string) (x d : string) :
  In d (setAdd s x) <-> In d s \/ d = x.
Proof.
  unfold setAdd, setHas. destruct (existsb (String.eqb x) s) eqn:Hs.
  - apply setHas_In in Hs. split; [now left|]. intros [Hd| ->]; assumption.
  - rewrite in_app_iff. cbn. split.
    + intros [Hd|[<-|[]]]; [now left|now right].
    + intros [Hd| ->]; [now left|right; now left].
Qed.

Lemma read_connections (connections : list ServiceConnection) :
  forall (m : list (string * list string)) (seen : list ServiceConnection),
    (forall k o, mapGet m k = Some o ->
       forall d, In d o <-> exists c, In c seen /\ source c = k /\ destination c = d) ->
    let m' := fold_left readConnection connections m in
    map fst m' = map fst m
    /\ forall k o, mapGet m' k = Some o ->
         forall d, In d o
                   <-> exists c, In c (seen ++ connections)
                                 /\ source c = k /\ destination c = d.
Proof.
  induction connections as [|conn connections IH]; intros m seen Hinv; cbn [fold_left].
  - split; [reflexivity|]. intros k o Hg d. rewrite app_nil_r. now apply Hinv.
  - assert (Hstep : map fst (readConnection m conn) = map fst m
                    /\ forall k o, mapGet (readConnection m conn) k = Some o ->
                         forall d, In d o
                                   <-> exists c, In c (seen ++ [conn])
                                                 /\ source c = k /\ destination c = d).
    { unfold readConnection.
      destruct (mapGet m (source conn)) as [o0|] eqn:Hg0.
      - split; [apply mapSet_present; eapply mapGet_key; exact Hg0|].
        intros k o. rewrite mapSet_get.
        destruct (String.eqb_spec k (source conn)) as [->|Hk].
        + intros [= <-] d. rewrite setAdd_In, (Hinv _ _ Hg0 d). split.
          * intros [(c & Hc & Hs & Hd)| ->].
            -- exists c. split; [apply in_or_app; now left|tauto].
            -- exists conn. split; [apply in_or_app; right; now left|tauto].
          * intros (c & Hc & Hs & Hd). apply in_app_or in Hc.
            destruct Hc as [Hc|[<-|[]]]; [left; now exists c|now right].
        + intros Hg d. rewrite (Hinv _ _ Hg d). split.
          * intros (c & Hc & Hs & Hd). exists c. split; [apply in_or_app; now left|tauto].
          * intros (c & Hc & Hs & Hd). apply in_app_or in Hc.
            destruct Hc as [Hc|[<-|[]]]; [now exists c|congruence].
      - split; [reflexivity|]. intros k o Hg d. rewrite (Hinv _ _ Hg d). split.
        + intros (c & Hc & Hs & Hd). exists c. split; [apply in_or_app; now left|tauto].
        + intros (c & Hc & Hs & Hd). apply in_app_or in Hc.
          destruct Hc as [Hc|[<-|[]]]; [now exists c|congruence]. }
    destruct Hstep as [Hk Hinv'].
    destruct (IH _ _ Hinv') as [IH1 IH2].
    split; [now rewrite IH1|].
    intros k o Hg d. rewrite (IH2 _ _ Hg d), <- app_assoc. reflexivity.
Qed.

Lemma connectivityMap_spec (services : list ConsulService)
    (connections : list ServiceConnection) :
  List.NoDup (map fst (connectivityMap services connections))
  /\ (forall k, In k (map fst (connectivityMap services connections))
                <-> knownName services k)
  /\ forall k o, In (k, o) (connectivityMap services connections) ->
       forall d, In d o
                 <-> exists c, In c connections /\ source c = k /\ destination c = d.
Proof.
  unfold connectivityMap.
  destruct (initial_map services [] ltac:(constructor) ltac:(constructor))
    as (Hnd & Hempty & Hkeys).
  set (initial := fold_left (fun m service' => mapSet m (name service') []) services []) in *.
  assert (Hinv : forall k o, mapGet initial k = Some o ->
            forall d, In d o
                      <-> exists c, In c (@nil ServiceConnection)
                                    /\ source c = k /\ destination c = d).
  { intros k o Hg d.
    rewrite (mapGet_allEmpty initial k Hempty (mapGet_key _ _ _ Hg)) in Hg.
    injection Hg as <-. split; [intros []|intros (c & [] & _)]. }
  destruct (read_connections connections initial [] Hinv) as [Hk Hsets].
  change (fold_left _ connections initial)
    with (fold_left readConnection connections initial).
  rewrite Hk. split; [assumption|]. split.
  - intros k. rewrite Hkeys. cbn. tauto.
  - intros k o Hin. apply Hsets. apply mapGet_entry; [now rewrite Hk|assumption].
Qed.

(** X12. The mesh analysis lists a name as isolated exactly when a
    service bears it, no connection leaves it, and every connection
    reaching it comes from a name that no service bears. *)
Theorem isolated_characterization (services : list ConsulService)
    (connections : list ServiceConnection) (n : string) :
  In n (isolatedServices (connectivityMap services connections))
  <-> knownName services n
      /\ (forall c, In c connections -> source c <> n)
      /\ (forall c, In c connections -> destination c = n ->
                    ~ knownName services (source c)).
Proof.
  destruct (connectivityMap_spec services connections) as (Hnd & Hkeys & Hsets).
  set (cm := connectivityMap services connections) in *.
  unfold isolatedServices. rewrite in_flat_map. split.
  - intros ([k o] & Hin & Hn).
    destruct (0 <? length o)%nat eqn:Hlen; [destruct Hn|].
    destruct (existsb (fun outgoing' => setHas outgoing' k) (map snd cm)) eqn:Hex;
      [destruct Hn|].
    cbn in Hn. destruct Hn as [<-|[]].
    assert (Ho : o = []) by (destruct o; [reflexivity|discriminate]). subst o.
    split; [apply Hkeys; apply in_map_iff; now exists (k, [])|]. split.
    + intros c Hc Hs. apply (proj2 (Hsets k [] Hin (destination c))).
      now exists c.
    + intros c Hc Hd Hknown. apply Hkeys in Hknown.
      apply in_map_iff in Hknown. destruct Hknown as ([k' o'] & Hk' & Hin').
      cbn in Hk'. subst k'.
      assert (Hmem : In k o') by (apply (Hsets _ _ Hin'); now exists c).
      assert (Hhas : existsb (fun outgoing' => setHas outgoing' k) (map snd cm) = true).
      { apply existsb_exists. exists o'. split.
        - apply in_map_iff. now exists (source c, o').
        - now apply setHas_In. }
      congruence.
  - intros (Hknown & Hout & Hinc).
    apply Hkeys in Hknown. apply in_map_iff in Hknown.
    destruct Hknown as ([k o] & Hk & Hin). cbn in Hk. subst k.
    exists (n, o). split; [assumption|].
    assert (Ho : o = []).
    { destruct o as [|d o]; [reflexivity|].
      destruct (proj1 (Hsets n _ Hin d) (or_introl eq_refl)) as (c & Hc & Hs & _).
      now destruct (Hout c Hc). }
    subst o. cbn [length Nat.ltb Nat.leb negb andb].
    destruct (existsb (fun outgoing' => setHas outgoing' n) (map snd cm)) eqn:Hex.
    + exfalso. apply existsb_exists in Hex. destruct Hex as (o' & Ho' & Hhas).
      apply setHas_In in Hhas. apply in_map_iff in Ho'.
      destruct Ho' as ([k' o''] & Heq & Hin'). cbn in Heq. subst o''.
      destruct (proj1 (Hsets k' o' Hin' n) Hhas) as (c & Hc & Hs & Hd).
      apply (Hinc c Hc Hd). apply Hkeys. rewrite Hs. apply in_map_iff. now exists (k', o').
    + now left.
Qed.

End TopologyFacts.

(** ** Shape of the analyses *)

Module ReportFacts.
Import Notions ServiceAnalyzer SetFacts AnalysisFacts.

(** *** Lower-cased text holds no capital H *)

Lemma lowerChar_not_H (c : ascii) : lowerChar c <> "H"%char.
Proof.
  destruct c as [[] [] [] [] [] [] [] []]; vm_compute; discriminate.
Qed.

Lemma prefix_HTTP_head (s : string) :
  String.prefix "HTTP" s = true -> exists t, s = String "H" t.
Proof.
  destruct s as [|c s]; [discriminate|].
  change (String.prefix "HTTP" (String c s))
    with (if Ascii.ascii_dec "H" c then String.prefix "TTP" s else false).
  destruct (Ascii.ascii_dec "H" c) as [<-|]; [|discriminate].
  intros _. now exists s.
Qed.

Lemma lowered_no_match (s : string) : matchHttpStatus (toLowerCase s) = None.
Proof.
  induction s as [|c s IH]; [reflexivity|].
  cbn [toLowerCase matchHttpStatus].
  destruct (String.prefix "HTTP" (String (lowerChar c) (toLowerCase s))) eqn:Hp.
  - apply prefix_HTTP_head in Hp. destruct Hp as (t & [= Hc _]).
    now destruct (lowerChar_not_H c).
  - exact IH.
Qed.

Lemma lowered_no_http (s : string) : testHttpStatus (toLowerCase s) = false.
Proof. unfold testHttpStatus. now rewrite lowered_no_match. Qed.

Lemma lowered_outputs_no_http (checks : list HealthCheck) :
  existsb testHttpStatus (map (fun check => toLowerCase (check_output check)) checks) = false.
Proof.
  induction checks as [|c checks IH]; [reflexivity|].
  cbn [map existsb]. now rewrite lowered_no_http, IH.
Qed.

(** Case analysis of a membership in a list built by pushes. *)
Ltac pushed H :=
  repeat match type of H with
         | In _ (_ ++ _) => apply in_app_or in H; destruct H as [H|H]
         | In _ (when ?c _) => destruct c; cbn [when] in H
         | In _ (if ?c then _ else _) => destruct c
         | In _ (_ :: _) => destruct H as [H|H]
         | In _ [] => destruct H
         end.

Lemma ltb_length_nil {A : Type} (l : list A) :
  (0 <? length l)%nat = false <-> l = [].
Proof.
  destruct l; cbn; split; congruence.
Qed.

(** X13. The mesh analysis always reports an issue and never repeats a
    recommendation; the sentinel issue appears exactly when no check is
    critical or warning, no connection fails and no service is isolated,
    and then it is the only issue and the monitoring recommendation is
    given. *)
Theorem mesh_shape (services : list ConsulService)
    (connections : list ServiceConnection) (hs : HealthManager.HealthSummary) :
  mesh_issues (analyzeMesh services connections hs) <> []
  /\ List.NoDup (mesh_recommendations (analyzeMesh services connections hs))
  /\ (In "No issues detected in the service mesh"
         (mesh_issues (analyzeMesh services connections hs))
      <-> (HealthManager.critical hs = 0%nat /\ HealthManager.warning hs = 0%nat
           /\ List.filter ServiceManager.failingStatus connections = []
           /\ isolatedServices (connectivityMap services connections) = []))
  /\ (In "No issues detected in the service mesh"
         (mesh_issues (analyzeMesh services connections hs)) ->
      mesh_issues (analyzeMesh services connections hs)
      = ["No issues detected in the service mesh"]
      /\ In "Continue monitoring service health and connections"
            (mesh_recommendations (analyzeMesh services connections hs))).
Proof.
  unfold analyzeMesh. cbn [mesh_issues mesh_recommendations].
  set (fcs := List.filter ServiceManager.failingStatus connections).
  set (iso := isolatedServices (connectivityMap services connections)).
  set (pairs := uniq (map pairLabel fcs)).
  match goal with
  | |- (?I ++ when (length ?I =? 0)%nat _) <> [] /\ _ => set (is0 := I)
  end.
  assert (Hnos : ~ In "No issues detected in the service mesh" is0).
  { intros Hin. subst is0. pushed Hin;
      try (exact (count_text_not_sentinel _ _ _ Hin)); cbn in Hin; discriminate. }
  assert (Hnil : is0 = []
                 <-> (HealthManager.critical hs = 0%nat /\ HealthManager.warning hs = 0%nat
                      /\ fcs = [] /\ iso = [])).
  { subst is0. split.
    - intros Hnil.
      apply app_eq_nil in Hnil. destruct Hnil as [H1 Hnil].
      apply app_eq_nil in Hnil. destruct Hnil as [H2 Hnil].
      apply app_eq_nil in Hnil. destruct Hnil as [H3 H4].
      destruct (Nat.ltb_spec 0 (HealthManager.critical hs)); [discriminate|].
      destruct (Nat.ltb_spec 0 (HealthManager.warning hs)); [discriminate|].
      destruct (0 <? length fcs)%nat eqn:E3; [discriminate|].
      destruct (0 <? length iso)%nat eqn:E4; [discriminate|].
      apply ltb_length_nil in E3, E4. repeat split; try assumption; lia.
    - intros (-> & -> & -> & ->). reflexivity. }
  split; [|split; [|split]].
  - destruct is0; cbn; discriminate.
  - apply uniq_NoDup.
  - rewrite <- Hnil. split.
    + intros Hin. apply in_app_or in Hin. destruct Hin as [Hin|Hin]; [contradiction|].
      destruct is0; [reflexivity|destruct Hin].
    + intros ->. now left.
  - intros Hin. apply in_app_or in Hin. destruct Hin as [Hin|Hin]; [contradiction|].
    destruct is0 as [|i0 is0']; [|destruct Hin].
    split; [reflexivity|].
    apply uniq_In. apply in_or_app. right. now left.
Qed.

Section WithPlatform.
Context `{Platform}.

Lemma metricFindings_shape (metrics : ServiceManager.ServiceMetrics) (p : string * string) :
  In p (metricFindings metrics) ->
  (exists t, fst p = String "H" t \/ fst p = String "S" t)
  /\ In (snd p)
        [ "Investigate application logs for errors";
          "Consider scaling horizontally or optimizing resource usage";
          "Check for memory leaks or increase memory allocation";
          "Optimize critical paths or add caching" ].
Proof.
  unfold metricFindings. intros Hin. pushed Hin; subst p; cbn [fst snd];
    (split; [eexists; cbn; eauto|cbn; tauto]).
Qed.

(** X14. The analysis of a found service always reports an issue and
    never repeats a recommendation; it never recommends to investigate
    HTTP errors, the pattern being tested on lower-cased outputs; and
    when the sentinel issue appears it is the only issue and the only
    recommendation is to continue monitoring. *)
Theorem analysis_shape (serviceName' : string) (details : ServiceManager.ServiceDetails) :
  issues (analyzeFound serviceName' details) <> []
  /\ List.NoDup (recommendations (analyzeFound serviceName' details))
  /\ ~ In "Investigate HTTP errors in service logs"
          (recommendations (analyzeFound serviceName' details))
  /\ (In "No issues detected" (issues (analyzeFound serviceName' details)) ->
      issues (analyzeFound serviceName' details) = ["No issues detected"]
      /\ recommendations (analyzeFound serviceName' details)
         = ["Continue monitoring service health"]).
Proof.
  unfold analyzeFound. cbn [issues recommendations].
  rewrite lowered_outputs_no_http.
  pose proof (metricFindings_shape (ServiceManager.getServiceMetrics serviceName')) as Hmf.
  generalize dependent (metricFindings (ServiceManager.getServiceMetrics serviceName')).
  intros mf Hmf.
  set (fc := List.filter isFailingCheck
               (health_checks (health (ServiceManager.service details)))).
  set (fi := List.filter ServiceManager.failingStatus (ServiceManager.incoming details)).
  set (fo := List.filter ServiceManager.failingStatus (ServiceManager.outgoing details)).
  set (mc := List.filter usesServiceMesh
               (ServiceManager.incoming details ++ ServiceManager.outgoing details)).
  set (bc := List.filter (fun conn => ConnectionStatus_eqb (status conn) blocked) mc).
  match goal with
  | |- (?I ++ when (length ?I =? 0)%nat _) <> [] /\ _ => set (is0 := I)
  end.
  match goal with
  | |- _ /\ List.NoDup (uniq (?R ++ _)) /\ _ => set (rs0 := R)
  end.
  assert (Hnos : ~ In "No issues detected" is0).
  { intros Hin. subst is0. pushed Hin;
      try (apply in_map_iff in Hin; destruct Hin as (x & Hx & Hin));
      try (cbn in Hx; discriminate);
      try (exact (count_text_not_sentinel _ _ _ Hin)).
    destruct (Hmf x Hin) as [(t & [Ht|Ht]) _]; rewrite Ht in Hx; discriminate. }
  assert (Hnoh : ~ In "Investigate HTTP errors in service logs" rs0).
  { intros Hin. subst rs0. pushed Hin; try discriminate;
      try (cbn in Hin; discriminate).
    apply in_map_iff in Hin. destruct Hin as (x & Hx & Hin).
    destruct (Hmf x Hin) as [_ Hs]. rewrite Hx in Hs. pushed Hs; discriminate. }
  assert (Hrec : is0 = [] -> rs0 = []).
  { subst is0 rs0. intros Hnil.
    apply app_eq_nil in Hnil. destruct Hnil as [H1 Hnil].
    apply app_eq_nil in Hnil. destruct Hnil as [H2 Hnil].
    apply app_eq_nil in Hnil. destruct Hnil as [H3 Hnil].
    apply app_eq_nil in Hnil. destruct Hnil as [H4 H5].
    destruct mf; [|discriminate].
    destruct (0 <? length fi)%nat; [discriminate|].
    destruct (0 <? length fo)%nat; [discriminate|].
    destruct ((0 <? length mc)%nat && (0 <? length bc)%nat); [discriminate|].
    destruct (ServiceManager.hasFailingHealthChecks details); [|reflexivity].
    destruct fc; [reflexivity|discriminate]. }
  split; [|split; [|split]].
  - destruct is0; cbn; discriminate.
  - apply uniq_NoDup.
  - intros Hin. apply (proj1 (uniq_In _ _)) in Hin. apply in_app_or in Hin.
    destruct Hin as [Hin|Hin]; [contradiction|]. pushed Hin; discriminate.
  - intros Hin. apply in_app_or in Hin. destruct Hin as [Hin|Hin]; [contradiction|].
    destruct is0 as [|i0 is0']; [|destruct Hin].
    rewrite (Hrec eq_refl). split; reflexivity.
Qed.

End WithPlatform.

End ReportFacts.

(** ** Diagnosis of checks *)

Module DiagnosisFacts.
Import Notions SetFacts ReportFacts.

(** *** enrichHealthCheck *)

(** X15. An enriched check always carries a possible issue and a
    remediation; every issue is one of six fixed texts (the HTTP issue is
    never among them, the pattern being tested on the lower-cased
    output), and "Unknown issue" appears exactly when the remediation is
    the single fallback text. *)
Theorem enrichment_shape (check : HealthCheck) :
  HealthManager.possibleIssues (HealthManager.analysis (HealthManager.enrichHealthCheck check))
  <> []
  /\ HealthManager.remediation (HealthManager.analysis (HealthManager.enrichHealthCheck check))
     <> []
  /\ (forall issue,
        In issue (HealthManager.possibleIssues
                    (HealthManager.analysis (HealthManager.enrichHealthCheck check))) ->
        In issue knownIssues)
  /\ (In "Unknown issue"
         (HealthManager.possibleIssues
            (HealthManager.analysis (HealthManager.enrichHealthCheck check)))
      <-> HealthManager.remediation
            (HealthManager.analysis (HealthManager.enrichHealthCheck check))
          = ["Investigate service logs"]).
Proof.
  unfold HealthManager.enrichHealthCheck.
  cbn [HealthManager.analysis HealthManager.possibleIssues HealthManager.remediation].
  rewrite lowered_no_http.
  destruct (String.eqb (check_status check) "critical");
    [|destruct (String.eqb (check_status check) "warning")];
    destruct (includes (toLowerCase (check_output check)) "timeout");
    destruct (includes (toLowerCase (check_output check)) "connection refused");
    destruct (includes (toLowerCase (check_output check)) "disk"
              || includes (toLowerCase (check_output check)) "storage");
    cbn; (split; [discriminate|]); (split; [discriminate|]);
    (split; [intros issue Hin; tauto|]);
    (split; [intros Hin; repeat (destruct Hin as [Hin|Hin]; [discriminate|]);
                    try destruct Hin; try reflexivity
            |intros Heq; try discriminate; tauto]).
Qed.

(** *** analyzeHealthIssues *)

Lemma prefix_app (a b s : string) :
  String.prefix (a +:+ b) s = true -> String.prefix a s = true.
Proof.
  revert s. induction a as [|c a IH]; intros s; [destruct s; reflexivity|].
  destruct s as [|c' s]; [discriminate|].
  change (String.prefix (String c a +:+ b) (String c' s))
    with (if Ascii.ascii_dec c c' then String.prefix (a +:+ b) s else false).
  change (String.prefix (String c a) (String c' s))
    with (if Ascii.ascii_dec c c' then String.prefix a s else false).
  destruct (Ascii.ascii_dec c c'); [apply IH|discriminate].
Qed.

Lemma includes_app (s a b : string) :
  includes s (a +:+ b) = true -> includes s a = true.
Proof.
  induction s as [|c s IH]; cbn [includes]; rewrite !orb_true_iff.
  - intros [Hp|Hf]; [left; now apply prefix_app with (b := b)|discriminate].
  - intros [Hp|Hi]; [left; now apply prefix_app with (b := b)|right; now apply IH].
Qed.

Lemma isConnectionRefused_connect (check : HealthCheck) :
  HealthManager.isConnectionRefused check
  = includes (toLowerCase (check_output check)) "connect".
Proof.
  unfold HealthManager.isConnectionRefused.
  destruct (includes (toLowerCase (check_output check)) "connection refused") eqn:E;
    [|reflexivity].
  change "connection refused" with ("connect" +:+ "ion refused") in E.
  apply includes_app in E. now rewrite E.
Qed.

Lemma scan_shape (type' recommendation : string) (test : HealthCheck -> bool)
    (failingChecks : list HealthCheck) (entry : HealthManager.Pattern * string) :
  In entry (HealthManager.scan type' recommendation test failingChecks) ->
  HealthManager.pattern_type (fst entry) = type'
  /\ HealthManager.pattern_count (fst entry) = length (List.filter test failingChecks)
  /\ (1 <= HealthManager.pattern_count (fst entry) <= length failingChecks)%nat
  /\ List.NoDup (HealthManager.affectedServices (fst entry)).
Proof.
  unfold HealthManager.scan.
  destruct (Nat.ltb_spec 0 (length (List.filter test failingChecks))) as [Hlt|Hge];
    [|intros []].
  intros [<-|[]]. cbn. split; [reflexivity|]. split; [reflexivity|]. split.
  - split; [lia|]. apply filter_length_le.
  - apply uniq_NoDup.
Qed.

(** X16. The failure patterns are empty exactly when no check fails;
    every pattern counts between one and all failing checks, names each
    affected service once and has one of five types; a miscellaneous
    pattern stands alone and counts every failing check; and the
    connection_refused pattern counts the failing checks whose
    lower-cased output contains "connect". *)
Theorem classification_shape (failingChecks : list HealthCheck) :
  (HealthManager.patterns (HealthManager.classify failingChecks) = []
   <-> failingChecks = [])
  /\ (forall p, In p (HealthManager.patterns (HealthManager.classify failingChecks)) ->
        (1 <= HealthManager.pattern_count p <= length failingChecks)%nat
        /\ List.NoDup (HealthManager.affectedServices p)
        /\ In (HealthManager.pattern_type p)
              ["timeout"; "connection_refused"; "disk_space"; "http_error";
               "miscellaneous"])
  /\ (forall p, In p (HealthManager.patterns (HealthManager.classify failingChecks)) ->
        HealthManager.pattern_type p = "miscellaneous" ->
        HealthManager.patterns (HealthManager.classify failingChecks) = [p]
        /\ HealthManager.pattern_count p = length failingChecks)
  /\ (forall p, In p (HealthManager.patterns (HealthManager.classify failingChecks)) ->
        HealthManager.pattern_type p = "connection_refused" ->
        HealthManager.pattern_count p
        = length (List.filter
                    (fun check => includes (toLowerCase (check_output check)) "connect")
                    failingChecks)).
Proof.
  unfold HealthManager.classify. cbn [HealthManager.patterns].
  match goal with
  | |- context [if (length ?F =? 0)%nat && _ then _ else _] => set (found := F)
  end.
  assert (Hfound : forall entry, In entry found ->
            (1 <= HealthManager.pattern_count (fst entry) <= length failingChecks)%nat
            /\ List.NoDup (HealthManager.affectedServices (fst entry))
            /\ (HealthManager.pattern_type (fst entry) = "connection_refused" ->
                HealthManager.pattern_count (fst entry)
                = length (List.filter HealthManager.isConnectionRefused failingChecks))
            /\ In (HealthManager.pattern_type (fst entry))
                  ["timeout"; "connection_refused"; "disk_space"; "http_error"]).
  { intros entry Hin. subst found.
    repeat (apply in_app_or in Hin; destruct Hin as [Hin|Hin]);
      destruct (scan_shape _ _ _ _ _ Hin) as (Ht & Hc & Hr & Hn);
      (split; [exact Hr|]); (split; [exact Hn|]);
      (split; [rewrite Ht; try discriminate; intros _; exact Hc|]);
      rewrite Ht; cbn; tauto. }
  assert (Hext : List.filter HealthManager.isConnectionRefused failingChecks
                 = List.filter
                     (fun check => includes (toLowerCase (check_output check)) "connect")
                     failingChecks).
  { apply filter_ext. intros check. apply isConnectionRefused_connect. }
  rewrite <- Hext.
  destruct found as [|e0 found'] eqn:Hf; cbn [length Nat.eqb andb].
  - destruct failingChecks as [|c0 rest]; cbn [length Nat.ltb Nat.leb app map fst].
    + split; [tauto|]. split; [|split]; intros p [].
    + split; [split; discriminate|]. split; [|split].
      * intros p [<-|[]]. cbn.
        split; [lia|]. split; [apply uniq_NoDup|tauto].
      * intros p [<-|[]] _. split; reflexivity.
      * intros p [<-|[]]. cbn. discriminate.
  - assert (Hne : failingChecks <> []).
    { intros ->. destruct (Hfound e0 (or_introl eq_refl)) as ([H1 H2] & _). cbn in H2. lia. }
    split; [split; [discriminate|intros E; contradiction]|].
    split; [|split].
    + intros p Hin. apply in_map_iff in Hin. destruct Hin as (entry & <- & Hin).
      destruct (Hfound entry Hin) as (Hr & Hn & _ & Ht).
      split; [exact Hr|]. split; [exact Hn|]. cbn in Ht |- *. tauto.
    + intros p Hin Hmisc. apply in_map_iff in Hin. destruct Hin as (entry & <- & Hin).
      destruct (Hfound entry Hin) as (_ & _ & _ & Ht). rewrite Hmisc in Ht.
      cbn in Ht. destruct Ht as [E|[E|[E|[E|[]]]]]; discriminate.
    + intros p Hin Hcr. apply in_map_iff in Hin. destruct Hin as (entry & <- & Hin).
      destruct (Hfound entry Hin) as (_ & _ & Hc & _). now apply Hc.
Qed.

End DiagnosisFacts.

(** ** Identifiers, styles and the analyze-service entry points *)

Module IdentifierFacts.
Import Notions DiagramGenerator DiagramFacts.

Lemma isAlnum_not_underscore (c : ascii) :
  isAlnum c = true -> Ascii.eqb c "_" = false.
Proof.
  destruct c as [[] [] [] [] [] [] [] []]; vm_compute; congruence.
Qed.

(** X17. formatId is idempotent and its result holds letters, digits
    and underscores only; a name is its own identifier exactly when it
    holds only such characters; and two names share an identifier
    exactly when they have the same length and agree at every position
    up to the replacement. *)
Theorem formatId_idempotent (name' : string) :
  formatId (formatId name') = formatId name'
  /\ allIdChars (formatId name') = true
  /\ (formatId name' = name' <-> allIdChars name' = true)
  /\ (forall other : string,
        formatId other = formatId name' <->
        String.length other = String.length name'
        /\ forall i c d, String.get i other = Some c -> String.get i name' = Some d ->
                         (if isAlnum c then c else "_"%char)
                         = (if isAlnum d then d else "_"%char)).
Proof.
  split; [|split; [|split]].
  - induction name' as [|c s IH]; [reflexivity|].
    rewrite !formatId_cons, IH.
    destruct (isAlnum c) eqn:E; [now rewrite E|reflexivity].
  - unfold allIdChars. induction name' as [|c s IH]; [reflexivity|].
    rewrite formatId_cons. cbn [list_ascii_of_string forallb]. rewrite IH, andb_true_r.
    unfold isIdChar. destruct (isAlnum c) eqn:E; [now rewrite E|reflexivity].
  - unfold allIdChars. induction name' as [|c s IH]; [split; reflexivity|].
    rewrite formatId_cons. cbn [list_ascii_of_string forallb]. rewrite andb_true_iff.
    unfold isIdChar at 1. split.
    + intros Heq. injection Heq as Hc Hs. apply IH in Hs. split; [|exact Hs].
      destruct (isAlnum c) eqn:E; [reflexivity|]. now subst c.
    + intros [Hc Hs]. apply IH in Hs. rewrite Hs.
      destruct (isAlnum c); [reflexivity|].
      cbn in Hc. apply Ascii.eqb_eq in Hc. now subst c.
  - intros other. revert name'.
    induction other as [|c s IH]; intros [|d t].
    + split; [intros _; split; [reflexivity|intros i c d Hc; destruct i; discriminate]
             |reflexivity].
    + split; [rewrite formatId_cons; discriminate|intros [Hl _]; discriminate].
    + split; [rewrite formatId_cons; discriminate|intros [Hl _]; discriminate].
    + rewrite !formatId_cons. split.
      * intros Heq. injection Heq as Hhd Htl. apply IH in Htl. destruct Htl as [Hl Hg].
        split; [cbn; now rewrite Hl|].
        intros [|i] c' d'; cbn.
        -- intros [= <-] [= <-]. exact Hhd.
        -- apply Hg.
      * intros [Hl Hg]. f_equal.
        -- apply (Hg 0%nat c d); reflexivity.
        -- apply IH. split; [now injection Hl|].
           intros i c' d'. apply (Hg (S i) c' d').
Qed.

Section Styles.
Context `{Platform}.

(** X18. The diagram draws a connection in the failing style exactly
    when getFailingConnections would keep it, which is also the test of
    the enriched service's failing-connection flag; it draws no style
    exactly for the statuses healthy, allowed and inferred. *)
Theorem failing_style_agrees (connection : ServiceConnection) :
  (getConnectionStyle (status connection) = ":::failingConn"
   <-> isFailingConnection connection = true)
  /\ (isFailingConnection connection = ServiceManager.failingStatus connection)
  /\ (getConnectionStyle (status connection) = EmptyString
      <-> status connection = healthy \/ status connection = allowed
          \/ status connection = inferred).
Proof.
  unfold isFailingConnection, ServiceManager.failingStatus.
  destruct (status connection); cbn; (split; [split; congruence|]);
    (split; [reflexivity|]);
    (split; [intros; try discriminate; tauto
            |intros [E|[E|E]]; try discriminate; reflexivity]).
Qed.

End Styles.

End IdentifierFacts.

Module ActionFacts.
Import Notions ServiceManager ServiceAnalyzer Actions CatalogFacts AnalysisFacts.

Section WithPlatform.
Context `{Platform}.

Lemma getServiceByName_known (b : Backend) (serviceName' : string) :
  (exists details, getServiceByName b serviceName' = Some details)
  <-> knownName (getServices b) serviceName'.
Proof.
  unfold getServiceByName, knownName.
  destruct (find (fun s => String.eqb (name s) serviceName') (getServices b)) as [s|] eqn:E.
  - split; [intros _|intros _; eexists; reflexivity].
    apply find_some in E. destruct E as [Hin Hn]. apply String.eqb_eq in Hn.
    exists s. now split.
  - split; [intros [d Hd]; discriminate|].
    intros (s & Hin & Hn). rewrite find_none_iff in E. specialize (E s Hin).
    cbn in E. rewrite Hn, String.eqb_refl in E. discriminate.
Qed.

(** X19. On a registry whose catalog answers each key with nodes of
    that service, the analyze-service tool called without a service name
    analyses the default "consul" and is rejected as not found; with a
    name it resolves exactly when a service bears that name. *)
Theorem tool_default_rejected (b : Backend) :
  catalogConsistent b = true ->
  analyzeServiceTool b None = Rejected "Service consul not found"
  /\ analyzeServiceTool b (Some "consul") = analyzeServiceTool b None
  /\ forall service_name,
       (exists result, analyzeServiceTool b (Some service_name) = Resolved result)
       <-> knownName (getServices b) service_name.
Proof.
  intros Hcons.
  assert (Hnone : getServiceByName b "consul" = None).
  { destruct (getServiceByName b "consul") as [d|] eqn:E; [|reflexivity].
    assert (Hk : knownName (getServices b) "consul")
      by (apply getServiceByName_known; now exists d).
    destruct Hk as (s & Hin & Hn).
    now destruct (getServices_not_consul b s Hcons Hin). }
  split; [|split].
  - unfold analyzeServiceTool. cbn [from_option Datatypes.id]. now rewrite Hnone.
  - reflexivity.
  - intros service_name. rewrite <- getServiceByName_known.
    unfold analyzeServiceTool, analyzeService. cbn [from_option Datatypes.id].
    destruct (getServiceByName b service_name) as [d|].
    + split; intros _; eexists; reflexivity.
    + split; [intros [r Hr]; discriminate|intros [d Hd]; discriminate].
Qed.

(** X20. On one registry snapshot the analyze-service route never
    answers 500: it answers 400 exactly for a missing or empty name, 200
    exactly for a non-empty name that a service bears, and 404 exactly
    for a non-empty name that none bears; where the tool resolves, the
    route answers the same service report and analysis. *)
Theorem route_status (b : Backend) (serviceName' : option string) :
  statusCode (analyzeServiceRoute b serviceName') <> 500%nat
  /\ (statusCode (analyzeServiceRoute b serviceName') = 400%nat
      <-> serviceName' = None \/ serviceName' = Some EmptyString)
  /\ (statusCode (analyzeServiceRoute b serviceName') = 200%nat
      <-> exists n, serviceName' = Some n /\ n <> EmptyString
                    /\ knownName (getServices b) n)
  /\ (statusCode (analyzeServiceRoute b serviceName') = 404%nat
      <-> exists n, serviceName' = Some n /\ n <> EmptyString
                    /\ ~ knownName (getServices b) n)
  /\ (forall n result,
        n <> EmptyString ->
        analyzeServiceTool b (Some n) = Resolved result ->
        exists cpu mem req err,
          body (analyzeServiceRoute b (Some n))
          = ServiceBody (tool_service result) cpu mem req err (tool_analysis result)).
Proof.
  assert (Hcase : forall n, n <> EmptyString -> truthyParam (Some n) = Some n).
  { intros [|c s] Hn; [contradiction|reflexivity]. }
  assert (Hknown := getServiceByName_known b).
  split; [|split; [|split; [|split]]].
  - unfold analyzeServiceRoute, analyzeService.
    destruct (truthyParam serviceName') as [n|]; [|discriminate].
    destruct (getServiceByName b n); discriminate.
  - unfold analyzeServiceRoute, analyzeService.
    destruct serviceName' as [[|c s]|]; cbn [truthyParam].
    + split; [tauto|reflexivity].
    + destruct (getServiceByName b (String c s));
        (split; [discriminate|intros [E|E]; discriminate]).
    + split; [tauto|reflexivity].
  - unfold analyzeServiceRoute, analyzeService.
    destruct serviceName' as [n|];
      [|split; [discriminate|intros (n & E & _); discriminate]].
    destruct (String.eqb_spec n EmptyString) as [->|Hn].
    + split; [discriminate|intros (n & [= <-] & Hn & _); contradiction].
    + rewrite (Hcase n Hn). specialize (Hknown n).
      destruct (getServiceByName b n) as [d|]; cbn [statusCode].
      * split; [intros _|reflexivity]. exists n. split; [reflexivity|].
        split; [exact Hn|]. apply Hknown. now exists d.
      * split; [discriminate|]. intros (n' & [= <-] & _ & Hk).
        apply Hknown in Hk. destruct Hk as [d Hd]. discriminate.
  - unfold analyzeServiceRoute, analyzeService.
    destruct serviceName' as [n|];
      [|split; [discriminate|intros (n & E & _); discriminate]].
    destruct (String.eqb_spec n EmptyString) as [->|Hn].
    + split; [discriminate|intros (n & [= <-] & Hn & _); contradiction].
    + rewrite (Hcase n Hn). specialize (Hknown n).
      destruct (getServiceByName b n) as [d|]; cbn [statusCode].
      * split; [discriminate|]. intros (n' & [= <-] & _ & Hk).
        destruct Hk. apply Hknown. now exists d.
      * split; [intros _|reflexivity]. exists n. split; [reflexivity|].
        split; [exact Hn|]. intros Hk. apply Hknown in Hk.
        destruct Hk as [d Hd]. discriminate.
  - intros n result Hn. unfold analyzeServiceRoute, analyzeServiceTool, analyzeService.
    rewrite (Hcase n Hn). cbn [from_option Datatypes.id].
    destruct (getServiceByName b n) as [d|]; [|discriminate].
    intros [= <-]. cbn [body tool_service tool_analysis].
    do 4 eexists. reflexivity.
Qed.


End WithPlatform.
End ActionFacts.

(** * Worked registries *)

Module Scenarios.
Import Sample Notions Registries.
Import HealthFacts CatalogFacts SynthesisFacts ConnectionFacts UpstreamFacts AnalysisFacts.
Import ServiceAnalyzer.

(** ** Health rollup on the quiet registry *)

Example quiet_rollup :
  health_status (getServiceHealth quiet "db-1") = "warning"
  /\ health_status (getServiceHealth quiet "cache-1") = "critical"
  /\ health_status (getServiceHealth quiet "none") = "passing"
  /\ HealthManager.overallStatus (HealthManager.getHealthSummary quiet) = "critical".
Proof. repeat split; vm_compute; reflexivity. Qed.

Lemma rollup_precedence_witness :
  agent_check_list quiet = Value quietChecks
  /\ map check_status (health_checks (getServiceHealth quiet "db-1"))
     = statuses (attached "db-1" quietChecks)
  /\ Precedence (statuses (attached "db-1" quietChecks))
                (health_status (getServiceHealth quiet "db-1"))
  /\ Precedence (statuses quietChecks)
                (HealthManager.overallStatus (HealthManager.getHealthSummary quiet)).
Proof.
  split; [reflexivity|].
  exact (rollup_precedence quiet quietChecks "db-1" eq_refl).
Defined.

(** ** The service list of the quiet registry *)

Example quiet_services :
  map name (getServices quiet) = ["cache"; "db"]
  /\ @getServiceConnections platform quiet = [].
Proof. split; vm_compute; reflexivity. Qed.

Lemma getServices_excludes_consul_witness :
  catalogConsistent quiet = true
  /\ (forall s, In s (getServices quiet) ->
        name s <> "consul" /\ DiagramGenerator.formatId (name s) <> "consul")
  /\ analyzeService quiet "consul" = Rejected "Service consul not found".
Proof.
  split; [reflexivity|].
  pose proof (proj1 (proj2 (getServices_excludes_consul quiet)) eq_refl)
    as (Hnames & _ & Hrej & _).
  split; [exact Hnames|exact Hrej].
Defined.

(** ** Intentions that name the agent *)

(** C10, as stated, fails: the catalog of the guarded registry answers
    each key with nodes of that service and its service list leaves out
    the agent's entry, yet "consul" is the destination of every returned
    connection, the target of every edge of the diagram, and the service
    the mesh analysis recommends to monitor. *)
Lemma consul_named_by_intentions :
  catalogConsistent guarded = true
  /\ map name (getServices guarded) = ["w1"; "w2"; "w3"]
  /\ map (fun c => (source c, destination c, status c)) (getServiceConnections guarded)
     = [ ("w1", "consul", blocked); ("w2", "consul", blocked);
         ("w3", "consul", blocked) ]
  /\ map (DiagramGenerator.edgeLine
            {| DiagramGenerator.includeHealth := true;
               DiagramGenerator.includeMetrics := false |})
         (getServiceConnections guarded)
     = [ "  w1 --> consul:::failingConn" +:+ DiagramGenerator.newline;
         "  w2 --> consul:::failingConn" +:+ DiagramGenerator.newline;
         "  w3 --> consul:::failingConn" +:+ DiagramGenerator.newline ]
  /\ mesh_recommendations (analyzeServiceMesh guarded)
     = [ "Critical path services with most connections: consul. "
         +:+ "Consider monitoring these closely." ].
Proof.
  split; [reflexivity|].
  repeat split; vm_compute; reflexivity.
Qed.

(** ** Analysis of an unknown service *)

Lemma quiet_has_no_nonexistent :
  forall s, In s (getServices quiet) -> name s <> "nonexistent".
Proof.
  intros s Hs. vm_compute in Hs.
  destruct Hs as [<-|[<-|[]]]; discriminate.
Defined.

Lemma analyzeService_not_found_witness :
  analyzeService quiet "nonexistent" = Rejected "Service nonexistent not found"
  /\ forall analysis, analyzeService quiet "nonexistent" <> Resolved analysis.
Proof.
  exact (analyzeService_not_found quiet "nonexistent" quiet_has_no_nonexistent).
Defined.

(** A registered service, by contrast, is analysed. *)
Example analyzeService_found :
  analyzeService quiet "db"
  = Resolved
      {| issues := [ "Health check " +:+ dquote +:+ "db disk" +:+ dquote
                       +:+ " is warning: disk 91% full" ];
         recommendations :=
           [ "Increase available disk space or clean up logs/temporary files" ] |}.
Proof. vm_compute. reflexivity. Qed.

(** ** Mesh analysis without connections *)

Lemma mesh_without_connections_witness :
  getServiceConnections quiet = []
  /\ (forall s, In s (getServices quiet) ->
        In (name s)
           (isolatedServices
              (connectivityMap (getServices quiet) (getServiceConnections quiet))))
  /\ (In "No issues detected in the service mesh" (mesh_issues (analyzeServiceMesh quiet)) ->
      HealthManager.overallStatus (HealthManager.getHealthSummary quiet) = "passing").
Proof.
  split; [vm_compute; reflexivity|].
  pose proof (mesh_without_connections quiet ltac:(vm_compute; reflexivity))
    as (Hiso & _ & Hsentinel).
  split; [|exact Hsentinel].
  intros s Hs. apply (Hiso s Hs).
Defined.

Example quiet_mesh :
  mesh_issues (analyzeServiceMesh quiet)
  = [ "1 services have critical health checks";
      "1 services have warning health checks";
      "2 services appear to be isolated: cache, db" ].
Proof. vm_compute. reflexivity. Qed.

Example idle_mesh :
  mesh_issues (analyzeServiceMesh idle) = ["No issues detected in the service mesh"]
  /\ HealthManager.overallStatus (HealthManager.getHealthSummary idle) = "passing".
Proof. split; vm_compute; reflexivity. Qed.

(** ** An allow intention is re-scored *)

(** C3, as stated, fails: the intentions query of [meshed] answers the
    single intention a -> b with action 'allow', and the connection
    returned for it carries status 'warning' (drawn error rate
    0.0036), not 'allowed'. *)
Lemma allow_intention_rescored :
  connect_intentions_list meshed = Value [allowAB]
  /\ Intention.Action allowAB = "allow"
  /\ map (fun c => (source c, destination c, status c, errorRate c))
         (getServiceConnections meshed)
     = [ ("a", "b", warning, Some 0.0035883948990885987%float) ].
Proof. repeat split; vm_compute; reflexivity. Qed.

(** ** Two matching rules, one edge *)

(** C4, as stated, fails: the ordered pair (api, auth-service) of
    distinct services matches two rules, (api, service) and (api, auth),
    and the result holds one edge for it, not two. *)
Lemma two_rules_one_edge :
  getServices gateway = [api; auth]
  /\ id api <> id auth
  /\ matchingRules api auth = [("api", "service"); ("api", "auth")]
  /\ map (fun c => (source c, destination c)) (getServiceConnections gateway)
     = [ ("api", "auth-service") ].
Proof.
  split; [vm_compute; reflexivity|].
  split; [discriminate|].
  split; vm_compute; reflexivity.
Qed.

(** ** Declared upstreams *)

(** C5, as stated, fails: with no intentions, "order-service"
    declaring "db,cache" and one service of each name, three
    connections originate at "order-service" (the naming rule
    (service, db) adds a second edge to "db"), and after metric
    synthesis none of them has status 'inferred'. *)
Lemma order_service_three_edges :
  intentionConnections orders = []
  /\ map name (getServices orders) = ["order-service"; "db"; "cache"]
  /\ meta orderService !! "upstream_services" = Some "db,cache"
  /\ map (fun c => (source c, destination c, status c)) (getServiceConnections orders)
     = [ ("order-service", "db", warning);
         ("order-service", "cache", warning);
         ("order-service", "db", warning) ].
Proof. repeat split; vm_compute; reflexivity. Qed.

Lemma declared_upstreams_witness :
  intentionConnections billing = []
  /\ getServices billing = [billingService; dbService; cacheService]
  /\ meta billingService !! "upstream_services" = Some "db,cache"
  /\ namingConnections (getServices billing) billingService = []
  /\ metadataConnections (getServices billing) billingService
     = [ inferredConnection billingService dbService "http";
         inferredConnection billingService cacheService "http" ]
  /\ inferredFrom (getServices billing) billingService
     = [ inferredConnection billingService dbService "http";
         inferredConnection billingService cacheService "http" ].
Proof.
  pose proof (declared_upstreams billing [] [dbService; cacheService]
                billingService dbService cacheService
                ltac:(vm_compute; reflexivity) ltac:(vm_compute; reflexivity)
                ltac:(vm_compute; reflexivity) ltac:(vm_compute; reflexivity)
                ltac:(vm_compute; reflexivity))
    as (Hmeta & _ & Honly).
  assert (Hnaming : namingConnections (getServices billing) billingService = [])
    by (vm_compute; reflexivity).
  split; [vm_compute; reflexivity|].
  split; [vm_compute; reflexivity|].
  split; [vm_compute; reflexivity|].
  split; [exact Hnaming|].
  split; [exact Hmeta|exact (Honly Hnaming)].
Defined.

(** ** A rejected node query, a rejected check listing *)

Lemma getServices_all_or_nothing_witness :
  catalog_service_nodes flaky "db" = Throws /\ getServices flaky = [].
Proof.
  split; [reflexivity|].
  apply (RegistryFacts.getServices_all_or_nothing flaky ["consul"; "cache"; "db"] "db");
    [reflexivity|simpl; tauto|discriminate|reflexivity].
Defined.

Lemma check_listing_failure_witness :
  agent_check_list blind = Throws
  /\ map (fun s => health_status (health s)) (getServices blind) = ["unknown"; "unknown"]
  /\ getAllHealthChecks blind = []
  /\ HealthManager.overallStatus (HealthManager.getHealthSummary blind) = "passing".
Proof.
  split; [reflexivity|]. split; [vm_compute; reflexivity|].
  pose proof (RegistryFacts.check_listing_failure blind
                ltac:(intros checks; discriminate)) as (_ & Hall & _ & _ & Hoverall).
  split; [exact Hall|exact Hoverall].
Defined.

(** ** Returned connections *)

Lemma apiToAuth_returned : In apiToAuth (@getServiceConnections platform gateway).
Proof. vm_compute. left. reflexivity. Defined.


Lemma statuses_produced_witness :
  In apiToAuth (@getServiceConnections platform gateway)
  /\ (In apiToAuth (@getFailingConnections platform gateway)
      <-> (status apiToAuth = degraded \/ status apiToAuth = blocked)).
Proof.
  split; [exact apiToAuth_returned|].
  exact (proj2 (proj2 (proj2
           (@PipelineFacts.statuses_produced platform gateway apiToAuth
              apiToAuth_returned)))).
Defined.


(** ** The tool's default service name *)

Lemma tool_default_rejected_witness :
  catalogConsistent quiet = true
  /\ @Actions.analyzeServiceTool platform quiet None
     = Rejected "Service consul not found".
Proof.
  split; [reflexivity|].
  exact (proj1 (@ActionFacts.tool_default_rejected platform quiet eq_refl)).
Defined.

End Scenarios.
